(** * CBOM comparison analyzer: the normalizer, the join and the statistics

    A shallow embedding of [src/cbom_analyzer.py]
    (class [CBOMComparisonAnalyzer]) and the properties its specification
    states about it.

    Python values are modelled as follows.
    - A [str] is a [string]; each character stands for one code point
      (code points 0..255).
    - The result of [json.load] is a [json] tree.  Python's [None] is
      [JNull].
    - A Python exception is an [exn]; code that may raise lives in the
      error monad [py A := exn + A] ([inl e] is "raises e", [inr v] is
      "returns v"), and [try ... except Exception] is [catch].
    - A [dict] built by the program is an association list in insertion
      order; a [Counter] is such a list from hashable keys to counts.
    - [print] calls have no effect on the values computed and are left out. *)

From Stdlib Require Import String Ascii List ZArith Bool Arith Lia.
From Stdlib Require Import Floats.SpecFloat DecimalString.
From ExtLib Require Import Structures.Monad Structures.MonadExc.
From ExtLib Require Import Data.Monads.EitherMonad.
Import ListNotations.
Import MonadNotation.
Local Open Scope string_scope.
Local Open Scope monad_scope.
Set Warnings "-register-all".

(* ===================================================================== *)
(** * Python strings *)
(* ===================================================================== *)

Module PyStr.

(** [str.lower()] on code points 0..255: the letters A-Z and the Latin-1
    capitals U+00C0..U+00DE (without the multiplication sign U+00D7) move
    up by 32, every other character is its own lower case. *)
Definition lower_char (c : ascii) : ascii :=
  let n := nat_of_ascii c in
  if (((65 <=? n) && (n <=? 90))
      || ((192 <=? n) && (n <=? 214))
      || ((216 <=? n) && (n <=? 222)))%nat
  then ascii_of_nat (n + 32) else c.

Fixpoint lower (s : string) : string :=
  match s with
  | EmptyString => EmptyString
  | String c s' => String (lower_char c) (lower s')
  end.

(** [s.startswith(p)] *)
Fixpoint startswith (s p : string) : bool :=
  match p, s with
  | EmptyString, _ => true
  | String _ _, EmptyString => false
  | String a p', String b s' => Ascii.eqb a b && startswith s' p'
  end.

(** [s.endswith(p)] *)
Fixpoint endswith (s p : string) : bool :=
  match s with
  | EmptyString => String.eqb p EmptyString
  | String _ s' => String.eqb s p || endswith s' p
  end.

(** [p in s] for strings: [p] occurs in [s] as a substring. *)
Fixpoint contains (s p : string) : bool :=
  match s with
  | EmptyString => startswith EmptyString p
  | String _ s' => startswith s p || contains s' p
  end.

(** [s.replace(old, new)] for a non-empty [old]: the occurrences of [old]
    are found from left to right and do not overlap.  [skip] counts the
    characters of the current occurrence that are still to be dropped. *)
Fixpoint replace_from (old new : string) (skip : nat) (s : string) : string :=
  match s with
  | EmptyString => EmptyString
  | String c s' =>
      match skip with
      | S k => replace_from old new k s'
      | O =>
          if startswith s old
          then new ++ replace_from old new (String.length old - 1) s'
          else String c (replace_from old new 0 s')
      end
  end.

(** For an empty [old], Python puts [new] before every character and at
    the end. *)
Fixpoint replace_empty (new s : string) : string :=
  match s with
  | EmptyString => new
  | String c s' => new ++ String c (replace_empty new s')
  end.

Definition replace (s old new : string) : string :=
  match old with
  | EmptyString => replace_empty new s
  | String _ _ => replace_from old new 0 s
  end.

(** [os.path.splitext(p)[0]] for a file name without directory part: the
    name up to its last dot, unless only dots precede that dot (then the
    name has no extension and is returned whole). *)
Fixpoint before_last_dot (p : string) : option string :=
  match p with
  | EmptyString => None
  | String c p' =>
      match before_last_dot p' with
      | Some stem => Some (String c stem)
      | None => if Ascii.eqb c "."%char then Some EmptyString else None
      end
  end.

Fixpoint all_dots (s : string) : bool :=
  match s with
  | EmptyString => true
  | String c s' => Ascii.eqb c "."%char && all_dots s'
  end.

Definition splitext_root (p : string) : string :=
  match before_last_dot p with
  | Some stem => if all_dots stem then p else stem
  | None => p
  end.

End PyStr.

(* ===================================================================== *)
(** * JSON values, exceptions and the primitives the analyzer uses *)
(* ===================================================================== *)

(** The value [json.load] returns.  A float is its exact value
    ([spec_float]: zero, infinity, NaN, or sign, mantissa and binary
    exponent).  [JDict l] stands for the dict that holds, for every key of
    [l], the first binding of that key, the keys in order of first
    occurrence. *)
Inductive json : Type :=
| JNull
| JBool (b : bool)
| JInt (n : Z)
| JFloat (f : spec_float)
| JStr (s : string)
| JList (l : list json)
| JDict (d : list (string * json)).

(** The exceptions that occur: each carries the text [str(e)] returns.
    All of them are subclasses of [Exception]. *)
Inductive exn : Type :=
| TypeError (msg : string)
| AttributeError (msg : string)
| IndexError (msg : string)
| KeyError (msg : string)
| OSError (msg : string)
| JSONDecodeError (msg : string)
| UnicodeDecodeError (msg : string)
| OverflowError (msg : string)
| OtherException (msg : string).

Definition str_of_exn (e : exn) : string :=
  match e with
  | TypeError m | AttributeError m | IndexError m | KeyError m | OSError m
  | JSONDecodeError m | UnicodeDecodeError m | OverflowError m
  | OtherException m => m
  end.

(** Computations that return a value or raise. *)
Abbreviation py := (sum exn).

Definition type_name (v : json) : string :=
  match v with
  | JNull => "NoneType"
  | JBool _ => "bool"
  | JInt _ => "int"
  | JFloat _ => "float"
  | JStr _ => "str"
  | JList _ => "list"
  | JDict _ => "dict"
  end.

(** [isinstance(v, dict)], [isinstance(v, list)] *)
Definition is_dict (v : json) : bool :=
  match v with JDict _ => true | _ => false end.

Definition is_list (v : json) : bool :=
  match v with JList _ => true | _ => false end.

(** Truth value of an object in a condition. *)
Definition truthy (v : json) : bool :=
  match v with
  | JNull => false
  | JBool b => b
  | JInt n => negb (Z.eqb n 0)
  | JFloat (S754_zero _) => false
  | JFloat _ => true
  | JStr s => negb (String.eqb s "")
  | JList l => match l with [] => false | _ => true end
  | JDict d => match d with [] => false | _ => true end
  end.

Section Dict.
Context {V : Type}.

Fixpoint dict_lookup (d : list (string * V)) (k : string) : option V :=
  match d with
  | [] => None
  | (k', v) :: d' => if String.eqb k' k then Some v else dict_lookup d' k
  end.

(** [d.get(k, default)] *)
Definition dict_get (d : list (string * V)) (k : string) (default : V) : V :=
  match dict_lookup d k with
  | Some v => v
  | None => default
  end.

(** The keys of the dict, each once, in order of first occurrence. *)
Fixpoint dict_keys (d : list (string * V)) : list string :=
  match d with
  | [] => []
  | (k, _) :: d' => k :: remove string_dec k (dict_keys d')
  end.

(** [d[k] = v]: an existing key keeps its place, a new one goes last. *)
Fixpoint dict_set (d : list (string * V)) (k : string) (v : V)
  : list (string * V) :=
  match d with
  | [] => [(k, v)]
  | (k', v') :: d' =>
      if String.eqb k' k then (k', v) :: d' else (k', v') :: dict_set d' k v
  end.
End Dict.

(** Looking up the attribute [get]: only a dict has it.  The result is the
    bound method, a function of the key and the default. *)
Definition attr_get (o : json) : py (string -> json -> json) :=
  match o with
  | JDict d => ret (dict_get d)
  | _ => raise (AttributeError
                  ("'" ++ type_name o ++ "' object has no attribute 'get'"))
  end.

(** [o.get(k, default)] *)
Definition py_get (o : json) (k : string) (default : json) : py json :=
  getter <- attr_get o ;;
  ret (getter k default).

(** [o[0]] *)
Definition py_index0 (o : json) : py json :=
  match o with
  | JList (x :: _) => ret x
  | JList [] => raise (IndexError "list index out of range")
  | JStr (String c _) => ret (JStr (String c ""))
  | JStr EmptyString => raise (IndexError "string index out of range")
  | JDict _ => raise (KeyError "0")
  | _ => raise (TypeError
                  ("'" ++ type_name o ++ "' object is not subscriptable"))
  end.

(** The elements a [for] loop over [o] visits: the items of a list, the
    keys of a dict, the characters of a string; other values are not
    iterable. *)
Definition py_iter (o : json) : py (list json) :=
  match o with
  | JList l => ret l
  | JDict d => ret (map JStr (dict_keys d))
  | JStr s => ret (map (fun c => JStr (String c "")) (list_ascii_of_string s))
  | _ => raise (TypeError
                  ("'" ++ type_name o ++ "' object is not iterable"))
  end.

(** [len(o)] *)
Definition py_len (o : json) : py nat :=
  match o with
  | JList l => ret (List.length l)
  | JDict d => ret (List.length (dict_keys d))
  | JStr s => ret (String.length s)
  | _ => raise (TypeError
                  ("object of type '" ++ type_name o ++ "' has no len()"))
  end.

(* ===================================================================== *)
(** * Counter: counts by hashable key *)
(* ===================================================================== *)

(** The hashable JSON values; lists and dicts are not. *)
Inductive pykey : Type :=
| KNone
| KBool (b : bool)
| KInt (n : Z)
| KFloat (f : spec_float)
| KStr (s : string).

(** Using a value as a dict key. *)
Definition key_of (v : json) : py pykey :=
  match v with
  | JNull => ret KNone
  | JBool b => ret (KBool b)
  | JInt n => ret (KInt n)
  | JFloat f => ret (KFloat f)
  | JStr s => ret (KStr s)
  | JList _ | JDict _ =>
      raise (TypeError ("unhashable type: '" ++ type_name v ++ "'"))
  end.

(** Numbers are equal as keys when their values are: [True == 1 == 1.0].
    [numval] is the value in lowest terms (an odd mantissa). *)
Inductive numval : Type :=
| NZero
| NDyadic (neg : bool) (m : positive) (e : Z)
| NInf (neg : bool)
| NNan.

Fixpoint strip_zeros (m : positive) (e : Z) : positive * Z :=
  match m with
  | xO m' => strip_zeros m' (e + 1)
  | _ => (m, e)
  end.

Definition num_of_Z (n : Z) : numval :=
  match n with
  | Z0 => NZero
  | Zpos p => let (m, e) := strip_zeros p 0 in NDyadic false m e
  | Zneg p => let (m, e) := strip_zeros p 0 in NDyadic true m e
  end.

Definition num_of_float (f : spec_float) : numval :=
  match f with
  | S754_zero _ => NZero
  | S754_infinity s => NInf s
  | S754_nan => NNan
  | S754_finite s m e => let (m', e') := strip_zeros m e in NDyadic s m' e'
  end.

Definition numval_eqb (a b : numval) : bool :=
  match a, b with
  | NZero, NZero => true
  | NDyadic s m e, NDyadic s' m' e' =>
      Bool.eqb s s' && Pos.eqb m m' && Z.eqb e e'
  | NInf s, NInf s' => Bool.eqb s s'
  | NNan, NNan => true
  | _, _ => false
  end.

Definition key_num (k : pykey) : option numval :=
  match k with
  | KBool b => Some (num_of_Z (if b then 1 else 0))
  | KInt n => Some (num_of_Z n)
  | KFloat f => Some (num_of_float f)
  | KNone | KStr _ => None
  end.

(** Equality of keys as a dict sees it.  (The NaN that [json.load] yields
    is one object, found again by identity.) *)
Definition key_eqb (a b : pykey) : bool :=
  match a, b with
  | KNone, KNone => true
  | KStr s, KStr t => String.eqb s t
  | _, _ =>
      match key_num a, key_num b with
      | Some x, Some y => numval_eqb x y
      | _, _ => false
      end
  end.

Definition counter : Type := list (pykey * nat).

Fixpoint counter_lookup (c : counter) (k : pykey) : option nat :=
  match c with
  | [] => None
  | (k', n) :: c' => if key_eqb k' k then Some n else counter_lookup c' k
  end.

(** [c[k]]: a missing key counts 0. *)
Definition counter_get (c : counter) (k : pykey) : nat :=
  match counter_lookup c k with
  | Some n => n
  | None => 0
  end.

(** [c[k] = n] *)
Fixpoint counter_set (c : counter) (k : pykey) (n : nat) : counter :=
  match c with
  | [] => [(k, n)]
  | (k', n') :: c' =>
      if key_eqb k' k then (k', n) :: c' else (k', n') :: counter_set c' k n
  end.

(** [c[k] += 1] *)
Definition counter_incr (c : counter) (k : pykey) : counter :=
  counter_set c k (counter_get c k + 1).

(** [c.update(other)] for a Counter [other]: its counts are added to those
    of [c]. *)
Definition counter_update (c other : counter) : counter :=
  fold_left (fun acc kn => counter_set acc (fst kn) (snd kn + counter_get acc (fst kn)))
            other c.

(** [sum(c.values())] *)
Definition sum_counts (c : counter) : nat :=
  list_sum (map snd c).

(* ===================================================================== *)
(** * analyze_single_cbom *)
(* ===================================================================== *)

Definition TOOL_NAMES : list string := ["cbomkit"; "cdxgen"; "deepseek"].

(** [tool_name.lower() in {"cdxgen", "deepseek"}] *)
Definition is_flat_tool (tool_name : string) : bool :=
  let t := PyStr.lower tool_name in
  String.eqb t "cdxgen" || String.eqb t "deepseek".

(** The body of the [try] in the cbomkit branch.  [components] is the
    value the variable holds on entry (the empty list). *)
Definition cbomkit_body (cbom_data components : json) : py json :=
  if is_list cbom_data && truthy cbom_data then
    first <- py_index0 cbom_data ;;
    bom <- (if is_dict first
            then first' <- py_index0 cbom_data ;; py_get first' "bom" JNull
            else ret JNull) ;;
    if truthy bom && is_dict bom
    then py_get bom "components" (JList [])
    else ret components
  else ret components.

(** The handler of that [try]: the fallback for a dict payload. *)
Definition cbomkit_fallback (cbom_data components : json) : py json :=
  if is_dict cbom_data
  then py_get cbom_data "components" (JList [])
  else ret components.

(** Component extraction: the value of [components] when the loop starts. *)
Definition extract_components (cbom_data : json) (tool_name : string) : py json :=
  let components := JList [] in
  if is_flat_tool tool_name then
    if is_dict cbom_data
    then py_get cbom_data "components" (JList [])
    else ret components
  else
    catch (cbomkit_body cbom_data components)
          (fun _ => cbomkit_fallback cbom_data components).

(** The type of one component ([comp_type] in the loop body). *)
Definition component_type (tool_name : string) (comp : json) : py json :=
  if negb (is_flat_tool tool_name) && is_dict comp then
    crypto_props <- py_get comp "cryptoProperties" (JDict []) ;;
    getter <- attr_get crypto_props ;;
    default <- py_get comp "type" (JStr "unknown") ;;
    ret (getter "assetType" default)
  else
    if is_dict comp
    then py_get comp "type" (JStr "unknown")
    else ret (JStr "unknown").

(** The loop [for comp in components: ... component_types[comp_type] += 1]. *)
Fixpoint tally (tool_name : string) (comps : list json)
               (component_types : counter) : py counter :=
  match comps with
  | [] => ret component_types
  | comp :: rest =>
      comp_type <- component_type tool_name comp ;;
      k <- key_of comp_type ;;
      tally tool_name rest (counter_incr component_types k)
  end.

(** The analysis dict.  [error] is the key only the error record has. *)
Record analysis : Type := mk_analysis {
  total_components : nat;
  is_empty : bool;
  component_types : counter;
  error : option string
}.

Definition analyze_single_cbom (cbom_data : json) (tool_name : string)
  : py analysis :=
  components <- extract_components cbom_data tool_name ;;
  comps <- py_iter components ;;
  types <- tally tool_name comps [] ;;
  n <- py_len components ;;
  ret {| total_components := n;
         is_empty := Nat.eqb n 0;
         component_types := types;
         error := None |}.

(* ===================================================================== *)
(** * analyze_all_cboms *)
(* ===================================================================== *)

(** [self.comparison_data]: repository name, then tool name. *)
Definition store : Type := list (string * list (string * analysis)).

(** [self.comparison_data[repo_name][tool] = a] on the nested defaultdict. *)
Definition store_set (cd : store) (repo_name tool : string) (a : analysis)
  : store :=
  dict_set cd repo_name (dict_set (dict_get cd repo_name []) tool a).

Definition store_lookup (cd : store) (repo_name tool : string)
  : option analysis :=
  match dict_lookup cd repo_name with
  | Some tools_data => dict_lookup tools_data tool
  | None => None
  end.

(** The record stored when a file cannot be analysed. *)
Definition error_record (e : exn) : analysis :=
  {| total_components := 0;
     is_empty := true;
     component_types := [];
     error := Some (str_of_exn e) |}.

(** A tool directory as the run sees it: the names [os.listdir] returns,
    each with the outcome of opening the file and of [json.load]. *)
Definition listing : Type := list (string * py json).

(** The CBOM directory: for a tool, [None] when its directory does not
    exist, else the outcome of [os.listdir]. *)
Definition cbom_tree : Type := string -> option (py listing).

(** One turn of the loop over [cbom_files]: the [try] and its handler. *)
Definition analyze_file (tool cbom_file : string) (loaded : py json)
                        (cd : store) : py store :=
  let repo_name := PyStr.splitext_root cbom_file in
  catch (cbom_data <- loaded ;;
         analysis <- analyze_single_cbom cbom_data tool ;;
         ret (store_set cd repo_name tool analysis))
        (fun e => ret (store_set cd repo_name tool (error_record e))).

Fixpoint analyze_files (tool : string) (cbom_files : listing) (cd : store)
  : py store :=
  match cbom_files with
  | [] => ret cd
  | (cbom_file, loaded) :: rest =>
      cd' <- analyze_file tool cbom_file loaded cd ;;
      analyze_files tool rest cd'
  end.

Fixpoint analyze_tools (tree : cbom_tree) (tools : list string) (cd : store)
  : py store :=
  match tools with
  | [] => ret cd
  | tool :: rest =>
      match tree tool with
      | None => analyze_tools tree rest cd
      | Some listed =>
          names <- listed ;;
          let cbom_files :=
            filter (fun f => PyStr.endswith (fst f) ".json") names in
          cd' <- analyze_files tool cbom_files cd ;;
          analyze_tools tree rest cd'
      end
  end.

Definition analyze_all_cboms (tree : cbom_tree) (cd : store) : py store :=
  analyze_tools tree TOOL_NAMES cd.

(* ===================================================================== *)
(** * generate_comparison_report: joining analyses, durations and sizes *)
(* ===================================================================== *)

(** One entry of [results], a row of the DataFrame. *)
Record row : Type := mk_row {
  Repository : string;
  Tool : string;
  Total_Components : nat;
  Is_Empty : bool;
  Execution_Time : json;
  Component_Types : counter;
  Repository_Size : json;
  Java_Size : json
}.

(** [_load_execution_times]: [None] is a missing [durations.json]; a
    [JSONDecodeError] or an [IOError] gives the empty dict, any other
    exception goes on to the caller. *)
Definition _load_execution_times (metrics_file : option (py json)) : py json :=
  match metrics_file with
  | None => ret (JDict [])
  | Some loaded =>
      catch loaded
            (fun e => match e with
                      | JSONDecodeError _ | OSError _ => ret (JDict [])
                      | _ => raise e
                      end)
  end.

(** [execution_times.get(repo_name, {}).get(tool, {}).get('duration')] *)
Definition exec_time_of (execution_times : json) (repo_name tool : string)
  : py json :=
  by_repo <- py_get execution_times repo_name (JDict []) ;;
  by_tool <- py_get by_repo tool (JDict []) ;;
  py_get by_tool "duration" JNull.

(** The inner loop [for tool, data in tools_data.items()]. *)
Fixpoint repo_rows (execution_times : json) (repo_name : string)
                   (sizes : json * json)
                   (tools_data : list (string * analysis)) : py (list row) :=
  match tools_data with
  | [] => ret []
  | (tool, data) :: rest =>
      exec_time <- exec_time_of execution_times repo_name tool ;;
      more <- repo_rows execution_times repo_name sizes rest ;;
      ret ({| Repository := repo_name;
              Tool := tool;
              Total_Components := total_components data;
              Is_Empty := is_empty data;
              Execution_Time := exec_time;
              Component_Types := component_types data;
              Repository_Size := fst sizes;
              Java_Size := snd sizes |} :: more)
  end.

(** The outer loop [for repo_name, tools_data in
    self.comparison_data.items()], giving [results]. *)
Fixpoint build_results (cd : store) (execution_times : json)
                       (repo_sizes : list (string * (json * json)))
  : py (list row) :=
  match cd with
  | [] => ret []
  | (repo_name, tools_data) :: rest =>
      let sizes := dict_get repo_sizes repo_name (JNull, JNull) in
      rows <- repo_rows execution_times repo_name sizes tools_data ;;
      more <- build_results rest execution_times repo_sizes ;;
      ret (rows ++ more)%list
  end.

(* ===================================================================== *)
(** * _calculate_statistics *)
(* ===================================================================== *)

(** The integer-valued entries of [stats[tool]] and its type distribution.
    The float-valued entries ([empty_percentage], the averages and the
    standard deviation) are results of pandas' float64 arithmetic and are
    not part of this embedding. *)
Module Stats.
Record t : Type := mk {
  total_repos : nat;
  empty_cboms : nat;
  non_empty_cboms : nat;
  total_components : nat;
  component_types : counter
}.
End Stats.

(** [df[df['Tool'] == tool]] *)
Definition tool_rows (df : list row) (tool : string) : list row :=
  filter (fun r => String.eqb (Tool r) tool) df.

(** [column.sum()] on integers and on booleans. *)
Definition column_sum (xs : list nat) : nat := list_sum xs.

Definition bool_sum (bs : list bool) : nat :=
  list_sum (map (fun b : bool => if b then 1 else 0) bs).

Definition tool_statistics (tool_df : list row) : Stats.t :=
  let non_empty_df := filter (fun r => negb (Is_Empty r)) tool_df in
  {| Stats.total_repos := List.length tool_df;
     Stats.empty_cboms := bool_sum (map Is_Empty tool_df);
     Stats.non_empty_cboms := List.length non_empty_df;
     Stats.total_components := column_sum (map Total_Components tool_df);
     Stats.component_types :=
       fold_left counter_update (map Component_Types tool_df) [] |}.

Fixpoint statistics_for (tools : list string) (df : list row)
  : list (string * Stats.t) :=
  match tools with
  | [] => []
  | tool :: rest =>
      match tool_rows df tool with
      | [] => statistics_for rest df
      | tool_df => (tool, tool_statistics tool_df) :: statistics_for rest df
      end
  end.

Definition _calculate_statistics (df : list row) : list (string * Stats.t) :=
  statistics_for TOOL_NAMES df.

(** [generate_comparison_report] up to the statistics: [execution_times]
    and [repo_sizes] are what [_load_execution_times] and
    [_fetch_all_repo_sizes] returned.  An empty table gives empty
    statistics. *)
Definition generate_comparison_report (tree : cbom_tree) (cd : store)
    (execution_times : json) (repo_sizes : list (string * (json * json)))
  : py (store * list row * list (string * Stats.t)) :=
  cd' <- analyze_all_cboms tree cd ;;
  df <- build_results cd' execution_times repo_sizes ;;
  match df with
  | [] => ret (cd', [], [])
  | _ => ret (cd', df, _calculate_statistics df)
  end.

(* ===================================================================== *)
(** * export_to_csv and load_and_visualize_csv *)
(* ===================================================================== *)

(** A cell of the exported table: an integer, a missing value, or any
    other value (kept as it is): a float, a boolean, a string. *)
Inductive cell : Type :=
| CInt (n : Z)
| CNaN
| CObj (v : json).

(** The table in the CSV file.  Writing it with [to_csv] and reading it
    with [read_csv] gives back the same header and the same cells. *)
Record csv_table : Type := mk_table {
  header : list string;
  body : list (list cell)
}.

Section CsvExport.

(** [str(f)] for a float, used only to print a float that is a type name. *)
Variable float_repr : spec_float -> string.

(** [str(k)], as it appears in a column label. *)
Definition py_str (k : pykey) : string :=
  match k with
  | KNone => "None"
  | KBool true => "True"
  | KBool false => "False"
  | KInt n => NilZero.string_of_int (Z.to_int n)
  | KFloat f => float_repr f
  | KStr s => s
  end.

(** The columns of [df.drop('Component_Types', axis=1)]. *)
Definition main_columns : list string :=
  ["Repository"; "Tool"; "Total_Components"; "Is_Empty"; "Execution_Time";
   "Repository_Size"; "Java_Size"].

Definition main_cells (r : row) : list cell :=
  [CObj (JStr (Repository r)); CObj (JStr (Tool r));
   CInt (Z.of_nat (Total_Components r)); CObj (JBool (Is_Empty r));
   CObj (Execution_Time r); CObj (Repository_Size r); CObj (Java_Size r)].

(** The columns of [df['Component_Types'].apply(pd.Series)]: every key of
    every row's counter, once. *)
Definition add_key (keys : list pykey) (k : pykey) : list pykey :=
  if existsb (fun k' => key_eqb k' k) keys then keys else (keys ++ [k])%list.

Definition type_keys (df : list row) : list pykey :=
  fold_left (fun keys r => fold_left add_key (map fst (Component_Types r)) keys)
            df [].

(** [.fillna(0).astype(int)]: a key the row does not have counts 0. *)
Definition type_cells (keys : list pykey) (r : row) : list cell :=
  map (fun k => CInt (Z.of_nat (counter_get (Component_Types r) k))) keys.

(** [.add_prefix('Type_')] *)
Definition type_columns (keys : list pykey) : list string :=
  map (fun k => "Type_" ++ py_str k) keys.

Definition export_to_csv (df : list row) : csv_table :=
  let keys := type_keys df in
  {| header := (main_columns ++ type_columns keys)%list;
     body := map (fun r => (main_cells r ++ type_cells keys r)%list) df |}.

End CsvExport.

(** [int(f)] for a positive finite float, mantissa [m] and exponent [e]:
    its integer part. *)
Definition int_of_positive_float (m : positive) (e : Z) : Z :=
  Z.shiftl (Z.pos m) e.

(** [pd.notna(v) and v > 0], then [int(v)], for a cell that is not an
    integer: [None] when the test fails, else the count to store.  A
    missing value fails the test; a boolean counts as 0 or 1; a float is
    compared as a number and cut to its integer part, which may be 0, and
    infinity has none; a string cannot be compared with 0.  A table read
    from a CSV file holds no list and no dict: the text such a value was
    written as is read back as a string. *)
Definition positive_value (v : json) : py (option nat) :=
  match v with
  | JNull => ret None
  | JBool b => ret (if b then Some 1 else None)
  | JInt n => ret (if (0 <? n)%Z then Some (Z.to_nat n) else None)
  | JFloat S754_nan => ret None
  | JFloat (S754_zero _) => ret None
  | JFloat (S754_infinity true) => ret None
  | JFloat (S754_infinity false) =>
      raise (OverflowError "cannot convert float infinity to integer")
  | JFloat (S754_finite true _ _) => ret None
  | JFloat (S754_finite false m e) =>
      ret (Some (Z.to_nat (int_of_positive_float m e)))
  | JStr _ | JList _ | JDict _ =>
      raise (TypeError
               "'>' not supported between instances of 'str' and 'int'")
  end.

(** The loop [for col in df.columns] of [load_and_visualize_csv] on one
    row: [comp_types] is rebuilt from the columns named [Type_*]. *)
Fixpoint rebuild_types (columns : list string) (cells : list cell)
                       (comp_types : counter) : py counter :=
  match columns, cells with
  | col :: columns', c :: cells' =>
      if PyStr.startswith col "Type_" then
        let name := PyStr.replace col "Type_" "" in
        match c with
        | CInt n =>
            rebuild_types columns' cells'
              (if (0 <? n)%Z
               then counter_set comp_types (KStr name) (Z.to_nat n)
               else comp_types)
        | CNaN => rebuild_types columns' cells' comp_types
        | CObj v =>
            found <- positive_value v ;;
            rebuild_types columns' cells'
              (match found with
               | Some n => counter_set comp_types (KStr name) n
               | None => comp_types
               end)
        end
      else rebuild_types columns' cells' comp_types
  | _, _ => ret comp_types
  end.

(** A reconstructed row: the cells by column name and the rebuilt
    [Component_Types]. *)
Definition loaded_row : Type := (list (string * cell) * counter)%type.

Fixpoint load_rows (columns : list string) (rows : list (list cell))
  : py (list loaded_row) :=
  match rows with
  | [] => ret []
  | cells :: rest =>
      comp_types <- rebuild_types columns cells [] ;;
      more <- load_rows columns rest ;;
      ret ((combine columns cells, comp_types) :: more)
  end.

(** [load_and_visualize_csv] up to [reconstructed_data], on the table
    [pd.read_csv] returned. *)
Definition load_and_visualize_csv (t : csv_table) : py (list loaded_row) :=
  load_rows (header t) (body t).

(* ===================================================================== *)
(** * The extraction rule as the specification words it *)
(* ===================================================================== *)

(** "The value of the 'components' key", empty when there is none. *)
Definition components_value (d : list (string * json)) : json :=
  match dict_lookup d "components" with
  | Some v => v
  | None => JList []
  end.

(** For cdxgen and deepseek: the value of the top-level 'components' key
    when the payload is a dict, empty otherwise.  For any other tool: when
    the payload is a non-empty list whose first element is a dict that
    holds a dict under 'bom', that dict's 'components' value, empty
    otherwise.  The tool is told by its name in lower case, as the code
    tells it. *)
Definition spec_components (cbom_data : json) (tool_name : string) : json :=
  if is_flat_tool tool_name then
    match cbom_data with
    | JDict d => components_value d
    | _ => JList []
    end
  else
    match cbom_data with
    | JList (JDict first :: _) =>
        match dict_lookup first "bom" with
        | Some (JDict bom) => components_value bom
        | _ => JList []
        end
    | _ => JList []
    end.

(** A component the tally accepts whatever the tool: not a dict, or a dict
    whose 'type' (when present) is a string and whose 'cryptoProperties'
    (when present) is a dict whose 'assetType' (when present) is a
    string. *)
Definition string_or_absent (v : option json) : bool :=
  match v with
  | None | Some (JStr _) => true
  | Some _ => false
  end.

Definition plain_component (comp : json) : bool :=
  match comp with
  | JDict d =>
      string_or_absent (dict_lookup d "type") &&
      match dict_lookup d "cryptoProperties" with
      | None => true
      | Some (JDict cp) => string_or_absent (dict_lookup cp "assetType")
      | Some _ => false
      end
  | _ => true
  end.

(** The tally can count the component: its type can be read and is
    hashable. *)
Definition countable (tool_name : string) (comp : json) : bool :=
  match component_type tool_name comp with
  | inr comp_type =>
      match key_of comp_type with
      | inr _ => true
      | inl _ => false
      end
  | inl _ => false
  end.

(** The payload supplies the components array [l] in the shape the tool
    is expected to produce. *)
Definition supplies_array (cbom_data : json) (tool_name : string)
                          (l : list json) : Prop :=
  if is_flat_tool tool_name then
    match cbom_data with
    | JDict d => dict_lookup d "components" = Some (JList l)
    | _ => False
    end
  else
    match cbom_data with
    | JList (JDict first :: _) =>
        exists bom, dict_lookup first "bom" = Some (JDict bom) /\
                    dict_lookup bom "components" = Some (JList l)
    | _ => False
    end.

(* ===================================================================== *)
(** * The join as the specification words it *)
(* ===================================================================== *)

(** The 'duration' value of the metrics entry of a repository and a tool
    when there is such an entry, [None] otherwise. *)
Definition spec_duration (execution_times : json) (repo_name tool : string)
  : json :=
  match execution_times with
  | JDict by_repo =>
      match dict_lookup by_repo repo_name with
      | Some (JDict by_tool) =>
          match dict_lookup by_tool tool with
          | Some (JDict entry) =>
              match dict_lookup entry "duration" with
              | Some v => v
              | None => JNull
              end
          | _ => JNull
          end
      | _ => JNull
      end
  | _ => JNull
  end.

(** The sizes of a repository when the size lookup has them, [None]
    otherwise. *)
Definition spec_sizes (repo_sizes : list (string * (json * json)))
                      (repo_name : string) : json * json :=
  match dict_lookup repo_sizes repo_name with
  | Some sizes => sizes
  | None => (JNull, JNull)
  end.

(** The flat record of a (repository, tool) pair. *)
Definition spec_row (execution_times : json)
                    (repo_sizes : list (string * (json * json)))
                    (repo_name tool : string) (data : analysis) : row :=
  {| Repository := repo_name;
     Tool := tool;
     Total_Components := total_components data;
     Is_Empty := is_empty data;
     Execution_Time := spec_duration execution_times repo_name tool;
     Component_Types := component_types data;
     Repository_Size := fst (spec_sizes repo_sizes repo_name);
     Java_Size := snd (spec_sizes repo_sizes repo_name) |}.

(** The metrics data have the shape of the data model: a dict by
    repository of dicts by tool of metrics records (dicts).  Entries may
    be missing at every level. *)
Definition metrics_shaped (execution_times : json) : bool :=
  match execution_times with
  | JDict by_repo =>
      forallb (fun rt =>
                 match snd rt with
                 | JDict by_tool => forallb (fun te => is_dict (snd te)) by_tool
                 | _ => false
                 end) by_repo
  | _ => false
  end.

(* ===================================================================== *)
(** * Invariants of the analysis data *)
(* ===================================================================== *)

(** What holds of every analysis dict the program stores: the flag says
    whether the count is zero, and the type counts add up to the count. *)
Definition consistent (r : analysis) : Prop :=
  is_empty r = Nat.eqb (total_components r) 0 /\
  sum_counts (component_types r) = total_components r.

(** All the analysis dicts held in [comparison_data]. *)
Definition store_records (cd : store) : list analysis :=
  flat_map (fun rt => map snd (snd rt)) cd.

(** The (repository, tool) pairs of [comparison_data], in the order the
    two nested loops of the report visit them. *)
Definition store_pairs (cd : store) : list (string * string) :=
  flat_map (fun rt => map (fun ta => (fst rt, fst ta)) (snd rt)) cd.


(** The record [analyze_all_cboms] stores for a file: the analysis when
    loading and analysing return, the error record of the exception
    otherwise. *)
Definition stored_record (tool : string) (loaded : py json) : analysis :=
  match (cbom_data <- loaded ;; analyze_single_cbom cbom_data tool) with
  | inr a => a
  | inl e => error_record e
  end.

(* ===================================================================== *)
(** * The round trip through the CSV file *)
(* ===================================================================== *)

(** A component type name, as the round trip needs it: a string that does
    not hold the substring 'Type_'. *)
Definition plain_type_name (k : pykey) : Prop :=
  exists s, k = KStr s /\ PyStr.contains s "Type_" = false.

(** What one column of a row contributes on reading back: its entry of
    the row's counter when that count is positive. *)
Definition positive_entry (orig acc : counter) (k : pykey) : counter :=
  if (0 <? counter_get orig k)%nat
  then counter_set acc k (counter_get orig k)
  else acc.

(** The strictly positive counts of [orig] are exactly the entries of
    [rebuilt]. *)
Definition positive_counts_of (orig rebuilt : counter) : Prop :=
  forall k n,
    counter_lookup rebuilt k = Some n <->
    0 < n /\ counter_lookup orig k = Some n.

(* ===================================================================== *)
(** * A small run, used to instantiate the properties *)
(* ===================================================================== *)

(** Two cdxgen files, one of them not JSON, and a cbomkit directory with a
    dict payload and a file that is not a CBOM; no deepseek directory. *)
Definition example_tree : cbom_tree :=
  fun tool =>
    if String.eqb tool "cdxgen" then
      Some (inr [("a.json",
                  inr (JDict [("components",
                               JList [JDict [("type", JStr "library")];
                                      JInt 7])]));
                 ("b.json", inl (JSONDecodeError "Expecting value"))])
    else if String.eqb tool "cbomkit" then
      Some (inr [("a.json", inr (JDict [("components", JList [JNull])]));
                 ("notes.txt", inl (OSError "not read"))])
    else None.

(* ===================================================================== *)
(** * The tally as a histogram *)
(* ===================================================================== *)

(** The key under which the loop counts one component. *)
Definition component_key (tool_name : string) (comp : json) : py pykey :=
  comp_type <- component_type tool_name comp ;;
  key_of comp_type.

(** How many of the components are counted under a key equal to [k]. *)
Definition count_key (tool_name : string) (comps : list json) (k : pykey)
  : nat :=
  List.length
    (filter (fun comp => match component_key tool_name comp with
                         | inr k' => key_eqb k' k
                         | inl _ => false
                         end) comps).

(** No two entries of the counter have equal keys. *)
Fixpoint distinct_keys (c : counter) : bool :=
  match c with
  | [] => true
  | (k, _) :: c' =>
      negb (existsb (fun k' => key_eqb k k') (map fst c')) && distinct_keys c'
  end.

(** A counter as a Counter object is: each key once, no count of zero. *)
Definition counter_ok (c : counter) : Prop :=
  distinct_keys c = true /\ Forall (fun kn => 1 <= snd kn) c.

(* ===================================================================== *)
(** * The tools of a report *)
(* ===================================================================== *)

(** [available_tools] of [_create_visualizations_and_tables]:
    [[tool for tool in self.tools if tool in stats]]. *)
Definition available_tools (stats : list (string * Stats.t)) : list string :=
  filter (fun tool => match dict_lookup stats tool with
                      | Some _ => true
                      | None => false
                      end) TOOL_NAMES.

(** The rows of the table whose tool is one of [TOOL_NAMES]. *)
Definition known_tool_rows (df : list row) : list row :=
  filter (fun r => existsb (String.eqb (Tool r)) TOOL_NAMES) df.

(* ===================================================================== *)
(** * What a run leaves in the store, and when the join returns *)
(* ===================================================================== *)

(** The outcome of loading the last file of a listing that has the given
    repository name, if any. *)
Fixpoint last_loaded (cbom_files : listing) (repo_name : string)
  : option (py json) :=
  match cbom_files with
  | [] => None
  | (cbom_file, loaded) :: rest =>
      match last_loaded rest repo_name with
      | Some later => Some later
      | None =>
          if String.eqb (PyStr.splitext_root cbom_file) repo_name
          then Some loaded else None
      end
  end.

(** The files of a tool that a run reads: those of [TOOL_NAMES]
    directories that exist, named [*.json]. *)
Definition files_read (tree : cbom_tree) (tool : string) : listing :=
  if existsb (String.eqb tool) TOOL_NAMES then
    match tree tool with
    | Some (inr names) => filter (fun f => PyStr.endswith (fst f) ".json") names
    | _ => []
    end
  else [].

(** The metrics entry of one (repository, tool) pair can be read: the
    metrics are a dict, the repository's entry is missing or a dict, and
    in it the tool's entry is missing or a dict. *)
Definition entry_shaped (execution_times : json) (repo_name tool : string)
  : bool :=
  match execution_times with
  | JDict by_repo =>
      match dict_lookup by_repo repo_name with
      | None => true
      | Some (JDict by_tool) =>
          match dict_lookup by_tool tool with
          | None => true
          | Some w => is_dict w
          end
      | Some _ => false
      end
  | _ => false
  end.

(* ===================================================================== *)
(** * Reading a table back, whatever the type names *)
(* ===================================================================== *)

(** The key is a string. *)
Definition string_key (k : pykey) : Prop := exists s, k = KStr s.

(** The cell holds a count or is missing, and the cells of a row under
    the 'Type_' columns all do, as in a table of integer counts. *)
Definition is_count (c : cell) : bool :=
  match c with
  | CInt _ | CNaN => true
  | CObj _ => false
  end.

Definition count_cells (columns : list string) (cells : list cell) : bool :=
  forallb (fun cc => negb (PyStr.startswith (fst cc) "Type_")
                     || is_count (snd cc))
          (combine columns cells).

(** What one exported column of a row contributes on reading back when
    its type name is the string [s]: an entry under [s] without its
    occurrences of 'Type_', when the row's count is positive. *)
Definition stripped_entry (orig acc : counter) (k : pykey) : counter :=
  match k with
  | KStr s =>
      if (0 <? counter_get orig k)%nat
      then counter_set acc (KStr (PyStr.replace s "Type_" ""))
                       (counter_get orig k)
      else acc
  | _ => acc
  end.

(* ===================================================================== *)
(** * _fetch_all_repo_sizes *)
(* ===================================================================== *)

(** [o.items()] and [o.values()]: only a dict has them. *)
Definition py_items (o : json) : py (list (string * json)) :=
  match o with
  | JDict d => ret (map (fun k => (k, dict_get d k JNull)) (dict_keys d))
  | _ => raise (AttributeError
                  ("'" ++ type_name o ++ "' object has no attribute 'items'"))
  end.

Definition py_values (o : json) : py (list json) :=
  match o with
  | JDict d => ret (map (fun k => dict_get d k JNull) (dict_keys d))
  | _ => raise (AttributeError
                  ("'" ++ type_name o ++ "' object has no attribute 'values'"))
  end.

(** [next((tool_data.get('url') for tool_data in repo_data.values()
          if isinstance(tool_data, dict)), None)]: the 'url' of the first
    tool entry that is a dict. *)
Definition first_url (repo_data : json) : py json :=
  values <- py_values repo_data ;;
  match find is_dict values with
  | Some tool_data => py_get tool_data "url" JNull
  | None => ret JNull
  end.

Section FetchSizes.

(** [get_repo_sizes] of [adapter.github_endpoint]: the lookup over the
    network, with what it returns or raises for a URL. *)
Variable get_repo_sizes : json -> py (json * json).

(** The loop over [execution_times.items()], with [repo_sizes] and the set
    [processed_urls]. *)
Fixpoint fetch_sizes (items : list (string * json))
                     (repo_sizes : list (string * (json * json)))
                     (processed_urls : list pykey)
  : py (list (string * (json * json)) * list pykey) :=
  match items with
  | [] => ret (repo_sizes, processed_urls)
  | (repo_name, repo_data) :: rest =>
      url <- first_url repo_data ;;
      if truthy url then
        k <- key_of url ;;
        if negb (existsb (fun k' => key_eqb k' k) processed_urls) then
          sizes <- get_repo_sizes url ;;
          fetch_sizes rest (dict_set repo_sizes repo_name sizes)
                      (processed_urls ++ [k])%list
        else fetch_sizes rest repo_sizes processed_urls
      else fetch_sizes rest repo_sizes processed_urls
  end.

Definition _fetch_all_repo_sizes (execution_times : json)
  : py (list (string * (json * json))) :=
  items <- py_items execution_times ;;
  found <- fetch_sizes items [] [] ;;
  ret (fst found).

End FetchSizes.

(** The key of the URL of a repository entry, when it has a URL that
    counts: one that is not empty or None, and hashable. *)
Definition url_key (repo_data : json) : option pykey :=
  match first_url repo_data with
  | inr url =>
      if truthy url then
        match key_of url with
        | inr k => Some k
        | inl _ => None
        end
      else None
  | inl _ => None
  end.

(** One of the entries [before] has a URL equal to the key [k]. *)
Definition seen_before (before : list (string * json)) (k : pykey) : bool :=
  existsb (fun it => match url_key (snd it) with
                     | Some k' => key_eqb k' k
                     | None => false
                     end) before.

(** The sizes entry a repository is due: none when it has no URL that
    counts or an earlier repository has the same URL, else what the
    lookup of its URL returns. *)
Definition sizes_due (get_repo_sizes : json -> py (json * json))
                     (before : list (string * json)) (repo_data : json)
  : option (json * json) :=
  match url_key repo_data, first_url repo_data with
  | Some k, inr url =>
      if seen_before before k then None
      else match get_repo_sizes url with
           | inr sizes => Some sizes
           | inl _ => None
           end
  | _, _ => None
  end.

(* ===================================================================== *)
(** * adapter/deepseek.py: generate_cbom, from the parsed answer on *)
(* ===================================================================== *)

(** [key in o] for a string [key]: a key of a dict, a substring of a
    string, an element of a list. *)
Definition py_in (key : string) (o : json) : py bool :=
  match o with
  | JDict d => ret (match dict_lookup d key with
                    | Some _ => true
                    | None => false
                    end)
  | JStr s => ret (PyStr.contains s key)
  | JList l => ret (existsb (fun x => match x with
                                      | JStr s => String.eqb s key
                                      | _ => false
                                      end) l)
  | _ => raise (TypeError
                  ("argument of type '" ++ type_name o ++ "' is not iterable"))
  end.

(** [o[key] = value] for a string [key] *)
Definition py_setitem (o : json) (key : string) (value : json) : py json :=
  match o with
  | JDict d => ret (JDict (dict_set d key value))
  | JList _ => raise (TypeError
                        "list indices must be integers or slices, not str")
  | _ => raise (TypeError
                  ("'" ++ type_name o
                       ++ "' object does not support item assignment"))
  end.

(** [if key not in cbom_data: cbom_data[key] = value] *)
Definition add_missing (cbom_data : json) (key value : string) : py json :=
  present <- py_in key cbom_data ;;
  if negb present then py_setitem cbom_data key (JStr value)
  else ret cbom_data.

Module DeepSeek.

(** The CBOM [generate_cbom] returns ([None] of Python is [None] here),
    the first component of its result; the second is the elapsed time.
    [parsed] is what the request and [json.loads(content)] give: the
    parsed answer, or the exception one of them raised. *)
Definition generate_cbom (parsed : py json) : py (option json) :=
  catch
    (catch
       (cbom_data <- parsed ;;
        let cbom_data :=
          if negb (is_dict cbom_data) then
            if is_list cbom_data
            then JDict [("components", cbom_data)]
            else cbom_data
          else cbom_data in
        cbom_data <- add_missing cbom_data "bomFormat" "CycloneDX" ;;
        cbom_data <- add_missing cbom_data "specVersion" "1.6" ;;
        ret (Some cbom_data))
       (fun e => match e with
                 | JSONDecodeError _ => ret None
                 | _ => raise e
                 end))
    (fun _ => ret None).

End DeepSeek.

(** What the two [add_missing] steps leave in a dict: the standard fields
    hold their old value or the default, every other key is as before. *)
Definition standard_fields_added (before after : list (string * json))
  : Prop :=
  dict_lookup after "bomFormat"
    = Some (dict_get before "bomFormat" (JStr "CycloneDX")) /\
  dict_lookup after "specVersion"
    = Some (dict_get before "specVersion" (JStr "1.6")) /\
  forall k, k <> "bomFormat" -> k <> "specVersion" ->
            dict_lookup after k = dict_lookup before k.

(* ===================================================================== *)
(** * generate_comparison_report, from the files *)
(* ===================================================================== *)

Module CBOMComparisonAnalyzer.

(** [generate_comparison_report] from its first line to the statistics:
    the run over the CBOM directory, the metrics file ([None] when there
    is none, else the outcome of loading it), the size lookup over the
    network, the join and the statistics. *)
Definition generate_comparison_report
    (get_repo_sizes : json -> py (json * json)) (tree : cbom_tree)
    (metrics_file : option (py json)) (cd : store)
  : py (store * list row * list (string * Stats.t)) :=
  cd' <- analyze_all_cboms tree cd ;;
  execution_times <- _load_execution_times metrics_file ;;
  repo_sizes <- _fetch_all_repo_sizes get_repo_sizes execution_times ;;
  df <- build_results cd' execution_times repo_sizes ;;
  match df with
  | [] => ret (cd', [], [])
  | _ => ret (cd', df, _calculate_statistics df)
  end.

End CBOMComparisonAnalyzer.

(* ===================================================================== *)
(** * Properties *)
(* ===================================================================== *)

(** ** The error monad *)

Lemma bind_inr {A B : Type} (c : py A) (f : A -> py B) (v : B) :
  bind c f = inr v -> exists x, c = inr x /\ f x = inr v.
Proof.
  destruct c as [e | x]; simpl; intros H.
  - discriminate.
  - exists x. split; [reflexivity | exact H].
Qed.

Lemma catch_total {A : Type} (c : py A) (h : exn -> py A) :
  (forall e, exists v, h e = inr v) -> exists v, catch c h = inr v.
Proof.
  intros Hh. destruct c as [e | x]; simpl.
  - apply Hh.
  - exists x. reflexivity.
Qed.

Ltac bind_inv H :=
  let x := fresh "x" in
  let Hx := fresh "Hx" in
  apply bind_inr in H; destruct H as [x [Hx H]].

(** ** Lengths and iteration *)

Lemma length_list_ascii_of_string (s : string) :
  List.length (list_ascii_of_string s) = String.length s.
Proof.
  induction s as [| c s IH]; simpl; [reflexivity | now rewrite IH].
Qed.

(** [len(o)] is the number of elements a loop over [o] visits. *)
Lemma py_len_iter (o : json) (comps : list json) :
  py_iter o = inr comps -> py_len o = inr (List.length comps).
Proof.
  destruct o; simpl; intros H; try discriminate;
    injection H as <-; rewrite ?length_map; try reflexivity.
  now rewrite length_list_ascii_of_string.
Qed.

(** ** Counters *)

Lemma sum_counts_set_add (c : counter) (k : pykey) (m : nat) :
  sum_counts (counter_set c k (m + counter_get c k)) = sum_counts c + m.
Proof.
  unfold sum_counts, counter_get.
  induction c as [| [k' n'] c IH]; simpl.
  - lia.
  - destruct (key_eqb k' k); simpl.
    + lia.
    + rewrite IH. lia.
Qed.

Lemma sum_counts_incr (c : counter) (k : pykey) :
  sum_counts (counter_incr c k) = S (sum_counts c).
Proof.
  unfold counter_incr. rewrite Nat.add_comm.
  rewrite sum_counts_set_add. lia.
Qed.

Lemma sum_counts_cons (k : pykey) (n : nat) (c : counter) :
  sum_counts ((k, n) :: c) = n + sum_counts c.
Proof. reflexivity. Qed.

Lemma sum_counts_update (other c : counter) :
  sum_counts (counter_update c other) = sum_counts c + sum_counts other.
Proof.
  unfold counter_update. revert c.
  induction other as [| [k n] other IH]; intros c.
  - simpl. unfold sum_counts at 3. simpl. lia.
  - cbn [fold_left fst snd]. rewrite IH, sum_counts_set_add, sum_counts_cons.
    lia.
Qed.

(** ** The tally *)

Lemma tally_sum (tool_name : string) (comps : list json) :
  forall c c', tally tool_name comps c = inr c' ->
               sum_counts c' = sum_counts c + List.length comps.
Proof.
  induction comps as [| comp rest IH]; intros c c' H; simpl in H.
  - injection H as <-. simpl. lia.
  - destruct (component_type tool_name comp) as [e | t]; [discriminate |].
    simpl in H. destruct (key_of t) as [e | k]; [discriminate |].
    simpl in H. apply IH in H. rewrite H, sum_counts_incr.
    cbn [List.length]. lia.
Qed.

(** What a returned analysis record is made of. *)
Lemma analyze_single_cbom_inr (cbom_data : json) (tool_name : string)
                              (r : analysis) :
  analyze_single_cbom cbom_data tool_name = inr r ->
  exists components comps,
    extract_components cbom_data tool_name = inr components /\
    py_iter components = inr comps /\
    tally tool_name comps [] = inr (component_types r) /\
    total_components r = List.length comps /\
    is_empty r = Nat.eqb (List.length comps) 0 /\
    error r = None.
Proof.
  unfold analyze_single_cbom. intros H.
  destruct (extract_components cbom_data tool_name) as [e | components]
    eqn:Hext; [discriminate |].
  simpl in H.
  destruct (py_iter components) as [e | comps] eqn:Hiter; [discriminate |].
  simpl in H.
  destruct (tally tool_name comps []) as [e | types] eqn:Htally;
    [discriminate |].
  simpl in H. rewrite (py_len_iter _ _ Hiter) in H. simpl in H.
  injection H as <-. exists components, comps. simpl.
  repeat split; first [assumption | reflexivity].
Qed.

(** ** Component extraction *)

(** The [try] body of the cbomkit branch returns on every payload: no
    operation in it is applied to a value it is not defined on. *)
Lemma cbomkit_body_returns (cbom_data components : json) :
  exists v, cbomkit_body cbom_data components = inr v.
Proof.
  unfold cbomkit_body.
  destruct cbom_data as [| b | n | f | s | l | d]; simpl; eauto.
  destruct l as [| first rest]; simpl; eauto.
  destruct first as [| b | n | f | s | l | d]; simpl; eauto.
  destruct (truthy (dict_get d "bom" JNull) && is_dict (dict_get d "bom" JNull))
    eqn:Hbom; [| eauto].
  apply andb_true_iff in Hbom. destruct Hbom as [_ Hbom].
  destruct (dict_get d "bom" JNull); try discriminate.
  eexists. reflexivity.
Qed.

Lemma extract_components_flat (cbom_data : json) (tool_name : string) :
  is_flat_tool tool_name = true ->
  extract_components cbom_data tool_name =
  inr (match cbom_data with
       | JDict d => components_value d
       | _ => JList []
       end).
Proof.
  intros Ht. unfold extract_components. rewrite Ht.
  destruct cbom_data; reflexivity.
Qed.

Lemma extract_components_nested (cbom_data : json) (tool_name : string) :
  is_flat_tool tool_name = false ->
  extract_components cbom_data tool_name =
  inr (match cbom_data with
       | JList (JDict first :: _) =>
           match dict_lookup first "bom" with
           | Some (JDict bom) => components_value bom
           | _ => JList []
           end
       | _ => JList []
       end).
Proof.
  intros Ht. unfold extract_components, cbomkit_body. rewrite Ht.
  destruct cbom_data as [| b | n | f | s | l | d]; try reflexivity.
  destruct l as [| first rest]; try reflexivity.
  destruct first as [| b | n | f | s | l | d]; try reflexivity.
  simpl. unfold dict_get.
  destruct (dict_lookup d "bom") as [bom |]; [| reflexivity].
  destruct bom as [| b | n | f | s | l | bom]; simpl; try reflexivity.
  - destruct b; reflexivity.
  - destruct (negb (n =? 0)%Z); reflexivity.
  - destruct f; reflexivity.
  - destruct (negb (s =? "")); reflexivity.
  - destruct l; reflexivity.
  - destruct bom; reflexivity.
Qed.

Lemma extract_components_spec (cbom_data : json) (tool_name : string) :
  extract_components cbom_data tool_name =
  inr (spec_components cbom_data tool_name).
Proof.
  unfold spec_components.
  destruct (is_flat_tool tool_name) eqn:Ht.
  - now apply extract_components_flat.
  - now apply extract_components_nested.
Qed.

(** C6: the component list is extracted by the tool-specific shape rules:
    for cdxgen and deepseek the value of the top-level 'components' key of
    a dict payload (empty otherwise); for any other tool the 'components'
    value of the dict under 'bom' in the first element of a non-empty list
    payload (empty otherwise).  Extraction itself never raises. *)
Theorem C6_extraction_rules (cbom_data : json) (tool_name : string) :
  extract_components cbom_data tool_name =
  inr (spec_components cbom_data tool_name).
Proof. apply extract_components_spec. Qed.

(** ** Dicts *)

Section DictFacts.
Context {V : Type}.
Implicit Types (d : list (string * V)) (k : string) (v : V).

Lemma dict_lookup_set_eq d k v : dict_lookup (dict_set d k v) k = Some v.
Proof.
  induction d as [| [k' v'] d IH]; simpl.
  - now rewrite String.eqb_refl.
  - destruct (String.eqb k' k) eqn:E; simpl; rewrite E; auto.
Qed.

Lemma dict_lookup_set_neq d k k' v :
  k <> k' -> dict_lookup (dict_set d k v) k' = dict_lookup d k'.
Proof.
  intros Hne. induction d as [| [k0 v0] d IH]; simpl.
  - destruct (String.eqb_spec k k'); [contradiction | reflexivity].
  - destruct (String.eqb_spec k0 k) as [-> | Hk]; simpl.
    + destruct (String.eqb_spec k k'); [contradiction | reflexivity].
    + now rewrite IH.
Qed.

Lemma dict_lookup_In d k v : dict_lookup d k = Some v -> In (k, v) d.
Proof.
  induction d as [| [k' v'] d IH]; simpl; [discriminate |].
  destruct (String.eqb_spec k' k) as [-> | Hk]; intros H.
  - injection H as ->. now left.
  - right. auto.
Qed.

Lemma dict_set_In d k v k0 v0 :
  In (k0, v0) (dict_set d k v) -> (k0 = k /\ v0 = v) \/ In (k0, v0) d.
Proof.
  induction d as [| [k' v'] d IH]; simpl.
  - intros [H | []]. injection H as <- <-. now left.
  - destruct (String.eqb_spec k' k) as [-> | Hk]; simpl.
    + intros [H | H]; [injection H as <- <-; now left | right; now right].
    + intros [H | H]; [right; now left |].
      destruct (IH H) as [? | ?]; [now left | right; now right].
Qed.



End DictFacts.

(** ** The store [comparison_data] *)

Lemma store_lookup_set_eq (cd : store) (repo_name tool : string)
                          (a : analysis) :
  store_lookup (store_set cd repo_name tool a) repo_name tool = Some a.
Proof.
  unfold store_lookup, store_set.
  rewrite dict_lookup_set_eq. apply dict_lookup_set_eq.
Qed.

Lemma in_store_records (cd : store) (r : analysis) :
  In r (store_records cd) <->
  exists repo_name tools_data tool,
    In (repo_name, tools_data) cd /\ In (tool, r) tools_data.
Proof.
  unfold store_records. rewrite in_flat_map. split.
  - intros [[repo_name tools_data] [Hin Hr]]. simpl in Hr.
    apply in_map_iff in Hr. destruct Hr as [[tool r'] [Heq Hr]].
    simpl in Heq. subst r'. eauto.
  - intros [repo_name [tools_data [tool [Hin Hr]]]].
    exists (repo_name, tools_data). split; [assumption |].
    simpl. apply in_map_iff. exists (tool, r). auto.
Qed.

Lemma dict_get_In_records (cd : store) (repo_name tool : string)
                          (r : analysis) :
  In (tool, r) (dict_get cd repo_name []) -> In r (store_records cd).
Proof.
  unfold dict_get.
  destruct (dict_lookup cd repo_name) as [tools_data |] eqn:E; [| intros []].
  intros Hr. apply in_store_records.
  exists repo_name, tools_data, tool. split; [| assumption].
  now apply dict_lookup_In.
Qed.

Lemma store_set_records (cd : store) (repo_name tool : string)
                        (a r : analysis) :
  In r (store_records (store_set cd repo_name tool a)) ->
  r = a \/ In r (store_records cd).
Proof.
  intros H. apply in_store_records in H.
  destruct H as [rn [tools_data [t [Hin Hr]]]].
  unfold store_set in Hin. apply dict_set_In in Hin.
  destruct Hin as [[-> ->] | Hin].
  - apply dict_set_In in Hr. destruct Hr as [[_ ->] | Hr]; [now left |].
    right. eapply dict_get_In_records; eassumption.
  - right. apply in_store_records. eauto.
Qed.

Lemma store_set_invariant (P : analysis -> Prop) (cd : store)
                          (repo_name tool : string) (a : analysis) :
  P a -> Forall P (store_records cd) ->
  Forall P (store_records (store_set cd repo_name tool a)).
Proof.
  intros Ha Hcd. apply Forall_forall. intros r Hr.
  apply store_set_records in Hr. destruct Hr as [-> | Hr]; [assumption |].
  revert r Hr. now apply Forall_forall.
Qed.

(** ** analyze_all_cboms *)

(** One turn of the file loop always returns, and stores one record. *)
Lemma analyze_file_eq (tool cbom_file : string) (loaded : py json)
                      (cd : store) :
  analyze_file tool cbom_file loaded cd =
  inr (store_set cd (PyStr.splitext_root cbom_file) tool
                 (stored_record tool loaded)).
Proof.
  unfold analyze_file, stored_record.
  destruct loaded as [e | cbom_data]; simpl; [reflexivity |].
  destruct (analyze_single_cbom cbom_data tool); reflexivity.
Qed.

Lemma analyze_files_returns (tool : string) (cbom_files : listing) :
  forall cd, exists cd', analyze_files tool cbom_files cd = inr cd'.
Proof.
  induction cbom_files as [| [cbom_file loaded] rest IH]; intros cd; simpl.
  - eauto.
  - rewrite analyze_file_eq. simpl. apply IH.
Qed.

Lemma analyze_tools_returns (tree : cbom_tree) (tools : list string) :
  (forall tool e, tree tool <> Some (inl e)) ->
  forall cd, exists cd', analyze_tools tree tools cd = inr cd'.
Proof.
  intros Hls. induction tools as [| tool rest IH]; intros cd; simpl.
  - eauto.
  - destruct (tree tool) as [[e | names] |] eqn:E.
    + exfalso. eapply Hls; eassumption.
    + simpl.
      destruct (analyze_files_returns tool
                  (filter (fun f => PyStr.endswith (fst f) ".json") names) cd)
        as [cd1 ->].
      simpl. apply IH.
    + apply IH.
Qed.

(** The records of a file: consistent, whatever the file holds. *)
Lemma analyze_single_cbom_consistent (cbom_data : json) (tool_name : string)
                                     (r : analysis) :
  analyze_single_cbom cbom_data tool_name = inr r -> consistent r.
Proof.
  intros H. apply analyze_single_cbom_inr in H.
  destruct H as [components [comps [_ [_ [Htally [Htot [Hemp _]]]]]]].
  split.
  - now rewrite Hemp, Htot.
  - apply tally_sum in Htally. rewrite Htally, Htot. reflexivity.
Qed.

Lemma error_record_consistent (e : exn) : consistent (error_record e).
Proof. split; reflexivity. Qed.

Lemma stored_record_consistent (tool : string) (loaded : py json) :
  consistent (stored_record tool loaded).
Proof.
  unfold stored_record. destruct loaded as [e | cbom_data]; simpl.
  - apply error_record_consistent.
  - destruct (analyze_single_cbom cbom_data tool) eqn:E.
    + apply error_record_consistent.
    + eapply analyze_single_cbom_consistent; eassumption.
Qed.

Lemma analyze_files_consistent (tool : string) (cbom_files : listing) :
  forall cd cd',
    Forall consistent (store_records cd) ->
    analyze_files tool cbom_files cd = inr cd' ->
    Forall consistent (store_records cd').
Proof.
  induction cbom_files as [| [cbom_file loaded] rest IH]; intros cd cd' Hcd H;
    simpl in H.
  - now injection H as <-.
  - rewrite analyze_file_eq in H. simpl in H.
    eapply IH; [| eassumption].
    apply store_set_invariant; [apply stored_record_consistent | assumption].
Qed.

Lemma analyze_tools_consistent (tree : cbom_tree) (tools : list string) :
  forall cd cd',
    Forall consistent (store_records cd) ->
    analyze_tools tree tools cd = inr cd' ->
    Forall consistent (store_records cd').
Proof.
  induction tools as [| tool rest IH]; intros cd cd' Hcd H; simpl in H.
  - now injection H as <-.
  - destruct (tree tool) as [[e | names] |]; simpl in H.
    + discriminate.
    + bind_inv H. eapply IH; [| eassumption].
      eapply analyze_files_consistent; eassumption.
    + eapply IH; eassumption.
Qed.

Lemma consistent_flag (r : analysis) :
  consistent r -> (is_empty r = true <-> total_components r = 0).
Proof.
  intros [H _]. rewrite H. apply Nat.eqb_eq.
Qed.

(** C1: the analysis record [analyze_single_cbom] produces has [is_empty]
    true if and only if its [total_components] is zero, for every payload
    and tool name; the error record has [total_components] 0 and
    [is_empty] true; hence whatever a file holds, the record that
    [analyze_all_cboms] stores for it has the flag true exactly when the
    count is zero. *)
Theorem C1_emptiness_flag (cbom_data : json) (tool_name cbom_file : string)
                          (loaded : py json) (cd : store) :
  match analyze_single_cbom cbom_data tool_name with
  | inr r => is_empty r = true <-> total_components r = 0
  | inl e => total_components (error_record e) = 0 /\
             is_empty (error_record e) = true
  end /\
  exists r,
    (cd' <- analyze_file tool_name cbom_file loaded cd ;;
     ret (store_lookup cd' (PyStr.splitext_root cbom_file) tool_name))
    = inr (Some r) /\
    (is_empty r = true <-> total_components r = 0).
Proof.
  split.
  - destruct (analyze_single_cbom cbom_data tool_name) as [e | r] eqn:E.
    + split; reflexivity.
    + apply consistent_flag.
      eapply analyze_single_cbom_consistent; eassumption.
  - exists (stored_record tool_name loaded).
    rewrite analyze_file_eq. simpl. rewrite store_lookup_set_eq.
    split; [reflexivity |].
    apply consistent_flag, stored_record_consistent.
Qed.

Lemma store_lookup_set_other (cd : store) (repo_name tool : string)
                             (a : analysis) (repo_name' tool' : string) :
  repo_name <> repo_name' \/ tool <> tool' ->
  store_lookup (store_set cd repo_name tool a) repo_name' tool' =
  store_lookup cd repo_name' tool'.
Proof.
  intros Hne. unfold store_lookup, store_set.
  destruct (string_dec repo_name repo_name') as [<- | Hr].
  - rewrite dict_lookup_set_eq.
    destruct Hne as [Hne | Hne]; [contradiction |].
    rewrite dict_lookup_set_neq by assumption.
    unfold dict_get. now destruct (dict_lookup cd repo_name).
  - now rewrite dict_lookup_set_neq.
Qed.

(** A stored record stays until a later file of the same tool has the
    same repository name. *)
Lemma analyze_files_keeps (tool : string) (cbom_files : listing)
                          (repo_name : string) (a : analysis) :
  (forall f l, In (f, l) cbom_files -> PyStr.splitext_root f <> repo_name) ->
  forall cd cd',
    store_lookup cd repo_name tool = Some a ->
    analyze_files tool cbom_files cd = inr cd' ->
    store_lookup cd' repo_name tool = Some a.
Proof.
  induction cbom_files as [| [cbom_file loaded] rest IH]; intros Hnames cd cd'
    Hcd H; simpl in H.
  - now injection H as <-.
  - rewrite analyze_file_eq in H. simpl in H.
    eapply IH; [| | eassumption].
    + intros f l Hin. apply (Hnames f l). now right.
    + rewrite store_lookup_set_other; [assumption |].
      left. apply (Hnames cbom_file loaded). now left.
Qed.

(** ** The type of a component *)

Lemma numval_eqb_refl (x : numval) : numval_eqb x x = true.
Proof.
  destruct x as [| s m e | s |]; simpl; try reflexivity.
  - now rewrite Bool.eqb_reflx, Pos.eqb_refl, Z.eqb_refl.
  - apply Bool.eqb_reflx.
Qed.

Lemma key_eqb_refl (k : pykey) : key_eqb k k = true.
Proof.
  destruct k; simpl; try reflexivity; try apply numval_eqb_refl.
  apply String.eqb_refl.
Qed.

Lemma counter_lookup_set_eq (c : counter) (k : pykey) (n : nat) :
  counter_lookup (counter_set c k n) k = Some n.
Proof.
  induction c as [| [k' n'] c IH]; simpl.
  - now rewrite key_eqb_refl.
  - destruct (key_eqb k' k) eqn:E; simpl; rewrite E; auto.
Qed.

Lemma counter_get_incr (c : counter) (k : pykey) :
  counter_get (counter_incr c k) k = S (counter_get c k).
Proof.
  unfold counter_incr. unfold counter_get at 1.
  rewrite counter_lookup_set_eq. lia.
Qed.

Lemma component_type_plain (tool_name : string) (comp : json) :
  plain_component comp = true ->
  exists s, component_type tool_name comp = inr (JStr s).
Proof.
  intros Hp. unfold component_type.
  destruct comp as [| b | n | f | s | l | d];
    try (rewrite andb_false_r; simpl; eauto; fail).
  simpl in Hp. apply andb_true_iff in Hp. destruct Hp as [Hty Hcp].
  assert (exists s, dict_get d "type" (JStr "unknown") = JStr s) as [s Hs].
  { unfold dict_get. destruct (dict_lookup d "type") as [[] |];
      simpl in Hty; try discriminate; eauto. }
  destruct (is_flat_tool tool_name); simpl.
  - unfold py_get. simpl. rewrite Hs. eauto.
  - unfold py_get. simpl. unfold dict_get at 1.
    destruct (dict_lookup d "cryptoProperties") as [[| | | | | | cp] |];
      try discriminate; simpl.
    + rewrite Hs. unfold dict_get at 1.
      destruct (dict_lookup cp "assetType") as [[] |]; simpl in Hcp;
        try discriminate; eauto.
    + rewrite Hs. exists s. reflexivity.
Qed.

Lemma tally_plain (tool_name : string) (comps : list json) :
  Forall (fun comp => plain_component comp = true) comps ->
  forall c, exists c', tally tool_name comps c = inr c'.
Proof.
  induction 1 as [| comp rest Hp _ IH]; intros c; simpl.
  - eauto.
  - destruct (component_type_plain tool_name comp Hp) as [s ->]. simpl.
    apply IH.
Qed.

Lemma extract_supplied_array (cbom_data : json) (tool_name : string)
                             (l : list json) :
  supplies_array cbom_data tool_name l ->
  extract_components cbom_data tool_name = inr (JList l).
Proof.
  unfold supplies_array. rewrite extract_components_spec.
  unfold spec_components, components_value.
  destruct (is_flat_tool tool_name).
  - destruct cbom_data; try contradiction. now intros ->.
  - destruct cbom_data as [| | | | | [| [] rest] |]; try contradiction.
    intros [bom [-> ->]]. reflexivity.
Qed.

(** C10: for cbomkit (any tool other than cdxgen and deepseek), the [try]
    body cannot raise, so its handler, the fallback that would read a
    top-level 'components' key, is never run; a dict payload therefore
    gives an empty component list, total_components 0 and is_empty true,
    whatever it holds under 'components'. *)
Theorem C10_dict_payload_is_empty (tool_name : string)
                                  (d : list (string * json)) :
  is_flat_tool tool_name = false ->
  (forall cbom_data components handler,
     catch (cbomkit_body cbom_data components) handler =
     cbomkit_body cbom_data components) /\
  extract_components (JDict d) tool_name = inr (JList []) /\
  analyze_single_cbom (JDict d) tool_name =
    inr {| total_components := 0; is_empty := true; component_types := [];
           error := None |}.
Proof.
  intros Ht. split; [| split].
  - intros cbom_data components handler.
    destruct (cbomkit_body_returns cbom_data components) as [v ->].
    reflexivity.
  - now rewrite extract_components_nested.
  - unfold analyze_single_cbom.
    now rewrite extract_components_nested.
Qed.

(** C10 at cbomkit and a dict payload that has a 'components' array. *)
Lemma C10_dict_payload_is_empty_witness :
  analyze_single_cbom
    (JDict [("components", JList [JDict [("type", JStr "library")]])])
    "cbomkit" =
  inr {| total_components := 0; is_empty := true; component_types := [];
         error := None |}.
Proof.
  exact (proj2 (proj2 (C10_dict_payload_is_empty "cbomkit"
    [("components", JList [JDict [("type", JStr "library")]])] eq_refl))).
Defined.

(** C2 fails for cdxgen (and deepseek): a component with type "library"
    and cryptoProperties.assetType "algorithm" is tallied as "library". *)
Lemma C2_counterexample :
  dict_lookup [("type", JStr "library");
               ("cryptoProperties", JDict [("assetType", JStr "algorithm")])]
              "cryptoProperties"
    = Some (JDict [("assetType", JStr "algorithm")]) /\
  dict_lookup [("assetType", JStr "algorithm")] "assetType"
    = Some (JStr "algorithm") /\
  component_type "cdxgen"
    (JDict [("type", JStr "library");
            ("cryptoProperties", JDict [("assetType", JStr "algorithm")])])
    = inr (JStr "library") /\
  analyze_single_cbom
    (JDict [("components",
             JList [JDict [("type", JStr "library");
                           ("cryptoProperties",
                            JDict [("assetType", JStr "algorithm")])]])])
    "cdxgen"
    = inr {| total_components := 1; is_empty := false;
             component_types := [(KStr "library", 1)]; error := None |}.
Proof. repeat split. Qed.

Lemma tally_step (tool_name : string) (comp ty : json) (rest : list json)
                 (c : counter) :
  component_type tool_name comp = inr ty ->
  (forall k, key_of ty = inr k ->
             tally tool_name (comp :: rest) c =
               tally tool_name rest (counter_incr c k) /\
             counter_get (counter_incr c k) k = S (counter_get c k)) /\
  (forall e, key_of ty = inl e -> tally tool_name (comp :: rest) c = inl e).
Proof.
  intros Hty. split.
  - intros k Hk. split; [| apply counter_get_incr].
    simpl. rewrite Hty. simpl. now rewrite Hk.
  - intros e He. simpl. rewrite Hty. simpl. now rewrite He.
Qed.

(** C2, as the code has it.  For every tool name other than cdxgen and
    deepseek (in any letter case) and every component that is a dict
    holding a dict under 'cryptoProperties' with an 'assetType' entry, the
    type of the component is that assetType value, whatever its 'type'
    entry; the tally counts the component under it when the value is
    hashable and raises otherwise.  For cdxgen and deepseek the type of a
    dict component is its 'type' entry, or 'unknown' when it has none, and
    is tallied in the same way; it is the same for every dict with that
    'type' entry, so 'cryptoProperties' is not looked at; a component that
    is no dict has the type 'unknown'. *)
Theorem C2_asset_type_preferred
    (tool_name : string) (d : list (string * json)) (rest : list json)
    (c : counter) :
  (is_flat_tool tool_name = false ->
   forall cp v,
     dict_lookup d "cryptoProperties" = Some (JDict cp) ->
     dict_lookup cp "assetType" = Some v ->
     component_type tool_name (JDict d) = inr v /\
     (forall k,
        key_of v = inr k ->
        tally tool_name (JDict d :: rest) c =
          tally tool_name rest (counter_incr c k) /\
        counter_get (counter_incr c k) k = S (counter_get c k)) /\
     (forall e,
        key_of v = inl e -> tally tool_name (JDict d :: rest) c = inl e)) /\
  (is_flat_tool tool_name = true ->
   component_type tool_name (JDict d)
     = inr (dict_get d "type" (JStr "unknown")) /\
   (forall k,
      key_of (dict_get d "type" (JStr "unknown")) = inr k ->
      tally tool_name (JDict d :: rest) c =
        tally tool_name rest (counter_incr c k) /\
      counter_get (counter_incr c k) k = S (counter_get c k)) /\
   (forall e,
      key_of (dict_get d "type" (JStr "unknown")) = inl e ->
      tally tool_name (JDict d :: rest) c = inl e) /\
   (forall d',
      dict_lookup d' "type" = dict_lookup d "type" ->
      component_type tool_name (JDict d')
        = component_type tool_name (JDict d)) /\
   (forall comp,
      is_dict comp = false ->
      component_type tool_name comp = inr (JStr "unknown") /\
      tally tool_name (comp :: rest) c =
        tally tool_name rest (counter_incr c (KStr "unknown")))).
Proof.
  split.
  - intros Ht cp v Hcp Hat.
    assert (component_type tool_name (JDict d) = inr v) as Hty.
    { unfold component_type, py_get. rewrite Ht. simpl.
      unfold dict_get at 1. rewrite Hcp. simpl.
      unfold dict_get at 1. now rewrite Hat. }
    split; [exact Hty |]. now apply tally_step.
  - intros Ht.
    assert (forall d0, component_type tool_name (JDict d0)
                       = inr (dict_get d0 "type" (JStr "unknown"))) as Hty.
    { intros d0. unfold component_type. rewrite Ht. reflexivity. }
    split; [apply Hty |].
    split; [apply (tally_step _ _ _ rest c (Hty d)) |].
    split; [apply (tally_step _ _ _ rest c (Hty d)) |].
    split.
    + intros d' Hsame. rewrite !Hty. unfold dict_get. now rewrite Hsame.
    + intros comp Hcomp.
      assert (component_type tool_name comp = inr (JStr "unknown")) as Hu.
      { unfold component_type. rewrite Ht, Hcomp. reflexivity. }
      split; [exact Hu |].
      now apply (tally_step _ _ _ rest c Hu).
Qed.

(** C2 on the component above: for cbomkit it is counted as "algorithm",
    for deepseek as "library", with or without its cryptoProperties. *)
Lemma C2_asset_type_preferred_witness :
  let comp := [("type", JStr "library");
               ("cryptoProperties", JDict [("assetType", JStr "algorithm")])]
  in
  component_type "cbomkit" (JDict comp) = inr (JStr "algorithm") /\
  tally "cbomkit" [JDict comp] [] = inr [(KStr "algorithm", 1)] /\
  component_type "deepseek" (JDict comp) = inr (JStr "library") /\
  tally "deepseek" [JDict comp] [] = inr [(KStr "library", 1)] /\
  component_type "deepseek" (JDict [("type", JStr "library")])
    = component_type "deepseek" (JDict comp).
Proof.
  intros comp.
  destruct (C2_asset_type_preferred "cbomkit" comp [] []) as [Hnested _].
  destruct (Hnested eq_refl [("assetType", JStr "algorithm")]
                    (JStr "algorithm") eq_refl eq_refl)
    as [Hty [Hcount _]].
  destruct (C2_asset_type_preferred "deepseek" comp [] []) as [_ Hflat].
  destruct (Hflat eq_refl) as [Hty' [Hcount' [_ [Hsame _]]]].
  split; [exact Hty |].
  split; [exact (proj1 (Hcount (KStr "algorithm") eq_refl)) |].
  split; [exact Hty' |].
  split; [exact (proj1 (Hcount' (KStr "library") eq_refl)) |].
  exact (Hsame [("type", JStr "library")] eq_refl).
Defined.

(** C5 fails where the analysis raises: a cdxgen payload whose components
    array has one element, of an unhashable type, yields no count (and the
    run records 0 for it, not 1); a payload whose 'components' is null
    yields none either. *)
Lemma C5_counterexample :
  supplies_array
    (JDict [("components", JList [JDict [("type", JList [])]])]) "cdxgen"
    [JDict [("type", JList [])]] /\
  analyze_single_cbom
    (JDict [("components", JList [JDict [("type", JList [])]])]) "cdxgen"
    = inl (TypeError "unhashable type: 'list'") /\
  total_components
    (stored_record "cdxgen"
       (inr (JDict [("components", JList [JDict [("type", JList [])]])])))
    = 0 /\
  analyze_single_cbom (JDict [("components", JNull)]) "cdxgen"
    = inl (TypeError "'NoneType' object is not iterable").
Proof. repeat split. Qed.

Lemma tally_returns_iff (tool_name : string) (comps : list json) :
  forall c,
    (exists c', tally tool_name comps c = inr c') <->
    forallb (countable tool_name) comps = true.
Proof.
  induction comps as [| comp rest IH]; intros c; simpl.
  - split; [reflexivity | intros _; now exists c].
  - unfold countable at 1.
    destruct (component_type tool_name comp) as [e | ty]; simpl.
    + split; [intros [c' H] |]; discriminate.
    + destruct (key_of ty) as [e | k]; simpl.
      * split; [intros [c' H] |]; discriminate.
      * apply IH.
Qed.

(** C5, as the code has it: whenever [analyze_single_cbom] returns a
    record, its total_components is the length of the extracted component
    collection (hence not negative), and the length of the input's
    components array when the payload supplies one in the tool's expected
    shape; it does return on such a payload when every component of the
    array is plain (no dict, or a dict whose 'type' is a string or absent
    and whose 'cryptoProperties' is absent or a dict whose 'assetType' is
    a string or absent).  It returns exactly when the extracted value can
    be iterated and the type of every component can be read and is
    hashable; otherwise it raises, and the record that the run stores for
    the file is the error record, with total_components 0. *)
Theorem C5_component_count (cbom_data : json) (tool_name : string) :
  (forall r,
     analyze_single_cbom cbom_data tool_name = inr r ->
     exists comps,
       py_iter (spec_components cbom_data tool_name) = inr comps /\
       total_components r = List.length comps /\
       0 <= total_components r) /\
  (forall l,
     supplies_array cbom_data tool_name l ->
     (forall r, analyze_single_cbom cbom_data tool_name = inr r ->
                total_components r = List.length l) /\
     (Forall (fun comp => plain_component comp = true) l ->
      exists r, analyze_single_cbom cbom_data tool_name = inr r /\
                total_components r = List.length l)) /\
  ((exists r, analyze_single_cbom cbom_data tool_name = inr r) <->
   (exists components comps,
      extract_components cbom_data tool_name = inr components /\
      py_iter components = inr comps /\
      forallb (countable tool_name) comps = true)) /\
  (forall e,
     analyze_single_cbom cbom_data tool_name = inl e ->
     stored_record tool_name (inr cbom_data) = error_record e /\
     total_components (stored_record tool_name (inr cbom_data)) = 0 /\
     forall cbom_file cd,
       analyze_file tool_name cbom_file (inr cbom_data) cd =
       inr (store_set cd (PyStr.splitext_root cbom_file) tool_name
                      (error_record e))).
Proof.
  split; [| split; [| split]].
  - intros r H. apply analyze_single_cbom_inr in H.
    destruct H as [components [comps [Hext [Hiter [_ [Htot _]]]]]].
    rewrite extract_components_spec in Hext. injection Hext as <-.
    exists comps. repeat split; [assumption | assumption | lia].
  - intros l Hl. apply extract_supplied_array in Hl. split.
    + intros r H. apply analyze_single_cbom_inr in H.
      destruct H as [components [comps [Hext [Hiter [_ [Htot _]]]]]].
      rewrite Hl in Hext. injection Hext as <-.
      simpl in Hiter. injection Hiter as <-. exact Htot.
    + intros Hplain. unfold analyze_single_cbom. rewrite Hl. simpl.
      destruct (tally_plain tool_name l Hplain []) as [c' ->]. simpl.
      eexists. split; reflexivity.
  - split.
    + intros [r H]. apply analyze_single_cbom_inr in H.
      destruct H as [components [comps [Hext [Hiter [Htally _]]]]].
      exists components, comps. split; [exact Hext |].
      split; [exact Hiter |].
      apply (tally_returns_iff tool_name comps []). eauto.
    + intros [components [comps [Hext [Hiter Hall]]]].
      apply (tally_returns_iff tool_name comps []) in Hall.
      destruct Hall as [c' Hc']. unfold analyze_single_cbom.
      rewrite Hext. simpl. rewrite Hiter. simpl. rewrite Hc'. simpl.
      rewrite (py_len_iter _ _ Hiter). simpl. eexists. reflexivity.
  - intros e He.
    assert (stored_record tool_name (inr cbom_data) = error_record e) as Hrec.
    { unfold stored_record. simpl. now rewrite He. }
    split; [exact Hrec |]. split; [now rewrite Hrec |].
    intros cbom_file cd. now rewrite analyze_file_eq, Hrec.
Qed.

(** C5 at a cbomkit payload with two components. *)
Lemma C5_component_count_witness :
  exists r,
    analyze_single_cbom
      (JList [JDict [("bom",
                      JDict [("components",
                              JList [JDict [("type", JStr "library")];
                                     JStr "x"])])]])
      "cbomkit" = inr r /\
    total_components r = 2.
Proof.
  apply (proj2 (proj1 (proj2 (C5_component_count
    (JList [JDict [("bom",
                    JDict [("components",
                            JList [JDict [("type", JStr "library")];
                                   JStr "x"])])]])
    "cbomkit"))
    [JDict [("type", JStr "library")]; JStr "x"]
    (ex_intro _ [("components",
                  JList [JDict [("type", JStr "library")]; JStr "x"])]
       (conj eq_refl eq_refl)))).
  repeat constructor.
Defined.

(** ** The join of analyses, durations and sizes *)

Lemma exec_time_of_shaped (execution_times : json) (repo_name tool : string) :
  metrics_shaped execution_times = true ->
  exec_time_of execution_times repo_name tool =
  inr (spec_duration execution_times repo_name tool).
Proof.
  unfold metrics_shaped, exec_time_of, spec_duration, py_get.
  destruct execution_times as [| | | | | | by_repo]; try discriminate.
  intros Hshape. simpl. unfold dict_get at 1.
  destruct (dict_lookup by_repo repo_name) as [v |] eqn:Hrepo;
    [| reflexivity].
  apply dict_lookup_In in Hrepo.
  rewrite forallb_forall in Hshape. specialize (Hshape _ Hrepo).
  simpl in Hshape.
  destruct v as [| | | | | | by_tool]; try discriminate.
  simpl. unfold dict_get at 1.
  destruct (dict_lookup by_tool tool) as [w |] eqn:Htool; [| reflexivity].
  apply dict_lookup_In in Htool.
  rewrite forallb_forall in Hshape. specialize (Hshape _ Htool).
  simpl in Hshape.
  destruct w; try discriminate. reflexivity.
Qed.

Lemma repo_rows_shaped (execution_times : json)
    (repo_sizes : list (string * (json * json))) (repo_name : string)
    (tools_data : list (string * analysis)) :
  metrics_shaped execution_times = true ->
  repo_rows execution_times repo_name
            (dict_get repo_sizes repo_name (JNull, JNull)) tools_data =
  inr (map (fun ta => spec_row execution_times repo_sizes repo_name
                               (fst ta) (snd ta)) tools_data).
Proof.
  intros Hshape.
  induction tools_data as [| [tool data] rest IH]; simpl; [reflexivity |].
  rewrite exec_time_of_shaped by assumption. simpl. rewrite IH. reflexivity.
Qed.

Lemma build_results_shaped (cd : store) (execution_times : json)
    (repo_sizes : list (string * (json * json))) :
  metrics_shaped execution_times = true ->
  build_results cd execution_times repo_sizes =
  inr (flat_map
         (fun rt => map (fun ta => spec_row execution_times repo_sizes
                                            (fst rt) (fst ta) (snd ta))
                        (snd rt)) cd).
Proof.
  intros Hshape.
  induction cd as [| [repo_name tools_data] rest IH]; simpl; [reflexivity |].
  rewrite repo_rows_shaped by assumption. simpl. rewrite IH. reflexivity.
Qed.








Ltac solve_NoDup :=
  repeat (constructor; [simpl; intuition discriminate |]); constructor.

(** ** Statistics *)

Lemma repo_rows_from_store (execution_times : json) (repo_name : string)
    (sizes : json * json) (tools_data : list (string * analysis))
    (rows : list row) :
  repo_rows execution_times repo_name sizes tools_data = inr rows ->
  Forall (fun r => exists tool data,
                     In (tool, data) tools_data /\
                     Total_Components r = total_components data /\
                     Is_Empty r = is_empty data /\
                     Component_Types r = component_types data) rows.
Proof.
  revert rows.
  induction tools_data as [| [tool data] rest IH]; intros rows H; simpl in H.
  - injection H as <-. constructor.
  - bind_inv H. bind_inv H. injection H as <-. constructor.
    + exists tool, data. simpl. auto.
    + apply IH in Hx0. eapply Forall_impl; [| exact Hx0].
      intros r [t [a [Hin Hr]]]. exists t, a. simpl. auto.
Qed.

Lemma build_results_from_store (cd : store) (execution_times : json)
    (repo_sizes : list (string * (json * json))) (df : list row) :
  build_results cd execution_times repo_sizes = inr df ->
  Forall (fun r => exists data,
                     In data (store_records cd) /\
                     Total_Components r = total_components data /\
                     Is_Empty r = is_empty data /\
                     Component_Types r = component_types data) df.
Proof.
  revert df.
  induction cd as [| [repo_name tools_data] rest IH]; intros df H; simpl in H.
  - injection H as <-. constructor.
  - bind_inv H. bind_inv H. injection H as <-.
    apply Forall_app. split.
    + apply repo_rows_from_store in Hx.
      eapply Forall_impl; [| exact Hx].
      intros r [t [a [Hin Hr]]]. exists a. split; [| exact Hr].
      unfold store_records. simpl. apply in_or_app. left.
      apply in_map_iff. exists (t, a). auto.
    + apply IH in Hx0. eapply Forall_impl; [| exact Hx0].
      intros r [a [Hin Hr]]. exists a. split; [| exact Hr].
      unfold store_records. simpl. apply in_or_app. now right.
Qed.

Lemma aggregate_sum (rows : list row) :
  Forall (fun r => sum_counts (Component_Types r) = Total_Components r) rows ->
  forall c,
    sum_counts (fold_left counter_update (map Component_Types rows) c) =
    sum_counts c + column_sum (map Total_Components rows).
Proof.
  unfold column_sum.
  induction 1 as [| r rest Hr _ IH]; intros c; simpl.
  - lia.
  - rewrite IH, sum_counts_update, Hr. lia.
Qed.

Lemma statistics_for_In (tools : list string) (df : list row)
                        (tool : string) (st : Stats.t) :
  In (tool, st) (statistics_for tools df) ->
  st = tool_statistics (tool_rows df tool) /\ tool_rows df tool <> [].
Proof.
  induction tools as [| t rest IH]; simpl; [intros [] |].
  destruct (tool_rows df t) as [| r rows] eqn:E; [exact IH |].
  intros [H | H]; [| auto].
  injection H as <- <-. rewrite E. split; [reflexivity | discriminate].
Qed.

(** C3: in the statistics of a report the type counts of every tool add
    up to the tool's total component count, the sum of Total_Components
    over the tool's rows; every row of the table and every analysis dict
    of the store, error records included, has type counts that add up to
    its component count, which the aggregation preserves. *)
Theorem C3_type_counts_sum_to_total
    (tree : cbom_tree) (cd : store) (execution_times : json)
    (repo_sizes : list (string * (json * json)))
    (cd' : store) (df : list row) (stats : list (string * Stats.t))
    (tool : string) (st : Stats.t) :
  Forall consistent (store_records cd) ->
  generate_comparison_report tree cd execution_times repo_sizes
    = inr (cd', df, stats) ->
  In (tool, st) stats ->
  sum_counts (Stats.component_types st) = Stats.total_components st /\
  Stats.total_components st =
    list_sum (map Total_Components (tool_rows df tool)) /\
  Forall (fun r => sum_counts (Component_Types r) = Total_Components r) df /\
  Forall (fun a => sum_counts (component_types a) = total_components a)
         (store_records cd').
Proof.
  intros Hcd Hrep Hin. unfold generate_comparison_report in Hrep.
  bind_inv Hrep. bind_inv Hrep.
  assert (Forall consistent (store_records x)) as Hx1.
  { eapply analyze_tools_consistent; eassumption. }
  assert (Forall (fun r => sum_counts (Component_Types r) = Total_Components r)
                 x0) as Hrows.
  { apply build_results_from_store in Hx0.
    eapply Forall_impl; [| exact Hx0].
    intros r [a [Ha [Ht [_ Hc]]]]. rewrite Ht, Hc.
    rewrite Forall_forall in Hx1. apply (Hx1 a Ha). }
  destruct x0 as [| r0 rows0].
  - injection Hrep as <- <- <-. destruct Hin.
  - injection Hrep as <- <- <-.
    apply statistics_for_In in Hin. destruct Hin as [-> _].
    repeat split.
    + unfold tool_statistics. cbn [Stats.component_types Stats.total_components].
      rewrite aggregate_sum; [reflexivity |].
      unfold tool_rows. apply Forall_forall. intros r Hr.
      apply filter_In in Hr. destruct Hr as [Hr _].
      rewrite Forall_forall in Hrows. now apply Hrows.
    + exact Hrows.
    + eapply Forall_impl; [| exact Hx1]. now intros a [_ Ha].
Qed.

(** C3 at the example run, for cdxgen: counts 1 + 1 and total 2. *)
Lemma C3_type_counts_sum_to_total_witness :
  exists cd' df stats st,
    generate_comparison_report example_tree [] (JDict []) []
      = inr (cd', df, stats) /\
    In ("cdxgen", st) stats /\
    Stats.component_types st = [(KStr "library", 1); (KStr "unknown", 1)] /\
    sum_counts (Stats.component_types st) = Stats.total_components st.
Proof.
  destruct (generate_comparison_report example_tree [] (JDict []) [])
    as [e | [[cd' df] stats]] eqn:E; [discriminate E |].
  vm_compute in E. injection E as <- <- <-.
  eexists _, _, _, _. split; [reflexivity |].
  split; [right; left; reflexivity |].
  split; [reflexivity |].
  eapply (C3_type_counts_sum_to_total example_tree [] (JDict []) []).
  - constructor.
  - reflexivity.
  - right. left. reflexivity.
Defined.

(** ** Keys and counters, continued *)

Lemma numval_eqb_eq (x y : numval) : numval_eqb x y = true -> x = y.
Proof.
  destruct x as [| s m e | s |], y as [| s' m' e' | s' |]; simpl;
    try discriminate; try reflexivity; intros H.
  - apply andb_true_iff in H. destruct H as [H He].
    apply andb_true_iff in H. destruct H as [Hs Hm].
    apply Bool.eqb_prop in Hs. apply Pos.eqb_eq in Hm. apply Z.eqb_eq in He.
    now subst.
  - apply Bool.eqb_prop in H. now subst.
Qed.

Lemma numval_eqb_sym (x y : numval) : numval_eqb x y = numval_eqb y x.
Proof.
  destruct (numval_eqb x y) eqn:E.
  - apply numval_eqb_eq in E. subst. symmetry. apply numval_eqb_refl.
  - destruct (numval_eqb y x) eqn:E'; [| reflexivity].
    apply numval_eqb_eq in E'. subst. now rewrite numval_eqb_refl in E.
Qed.

Lemma key_eqb_sym (a b : pykey) : key_eqb a b = key_eqb b a.
Proof.
  destruct a, b; simpl; try reflexivity; try apply numval_eqb_sym.
  apply String.eqb_sym.
Qed.

(** Keys that are equal compare alike with every key. *)
Lemma key_eqb_congr (a b c : pykey) :
  key_eqb a b = true -> key_eqb a c = key_eqb b c.
Proof.
  destruct a, b; simpl; intros H; try discriminate;
    destruct c; simpl; try reflexivity;
    try (apply numval_eqb_eq in H; rewrite H; reflexivity);
    try (apply String.eqb_eq in H; subst; reflexivity).
Qed.

Lemma key_eqb_trans (a b c : pykey) :
  key_eqb a b = true -> key_eqb b c = true -> key_eqb a c = true.
Proof.
  intros Hab Hbc. now rewrite (key_eqb_congr a b c Hab).
Qed.

Lemma counter_lookup_congr (c : counter) (k k' : pykey) :
  key_eqb k k' = true -> counter_lookup c k = counter_lookup c k'.
Proof.
  intros H. induction c as [| [k0 n0] c IH]; simpl; [reflexivity |].
  rewrite (key_eqb_sym k0 k), (key_eqb_sym k0 k'), (key_eqb_congr k k' k0 H).
  now rewrite IH.
Qed.

Lemma counter_get_congr (c : counter) (k k' : pykey) :
  key_eqb k k' = true -> counter_get c k = counter_get c k'.
Proof.
  intros H. unfold counter_get. now rewrite (counter_lookup_congr c k k' H).
Qed.

Lemma counter_lookup_set (c : counter) (k k' : pykey) (n : nat) :
  counter_lookup (counter_set c k n) k' =
  if key_eqb k k' then Some n else counter_lookup c k'.
Proof.
  induction c as [| [k0 n0] c IH]; simpl.
  - reflexivity.
  - destruct (key_eqb k0 k) eqn:E; simpl.
    + rewrite (key_eqb_congr k0 k k' E). now destruct (key_eqb k k').
    + rewrite IH. destruct (key_eqb k0 k') eqn:E'; [| reflexivity].
      destruct (key_eqb k k') eqn:E''; [| reflexivity].
      rewrite key_eqb_sym in E''.
      rewrite (key_eqb_trans k0 k' k E' E'') in E. discriminate.
Qed.

Lemma counter_lookup_Some_In (c : counter) (k : pykey) (n : nat) :
  counter_lookup c k = Some n ->
  exists k0, In k0 (map fst c) /\ key_eqb k0 k = true.
Proof.
  induction c as [| [k0 n0] c IH]; simpl; [discriminate |].
  destruct (key_eqb k0 k) eqn:E.
  - intros _. exists k0. auto.
  - intros H. destruct (IH H) as [k1 [Hin Hk]]. exists k1. auto.
Qed.

(** ** String replacement *)

Lemma replace_from_absent (old new s : string) :
  PyStr.contains s old = false -> PyStr.replace_from old new 0 s = s.
Proof.
  induction s as [| c s IH]; simpl; [reflexivity |].
  intros H. apply orb_false_iff in H. destruct H as [Hhere Hrest].
  simpl in Hhere. rewrite Hhere. now rewrite IH.
Qed.

Lemma startswith_empty (s : string) : PyStr.startswith s "" = true.
Proof. now destruct s. Qed.

Lemma startswith_type_prefix (s : string) :
  PyStr.startswith ("Type_" ++ s) "Type_" = true.
Proof. simpl. apply startswith_empty. Qed.

(** Removing the prefix gives back a name that does not hold it. *)
Lemma replace_type_prefix (s : string) :
  PyStr.contains s "Type_" = false ->
  PyStr.replace ("Type_" ++ s) "Type_" "" = s.
Proof.
  intros H. unfold PyStr.replace. simpl. rewrite startswith_empty.
  now apply replace_from_absent.
Qed.

(** ** Export and reconstruction *)

Lemma rebuild_skip_main (r : row) (columns : list string)
                        (cells : list cell) (c : counter) :
  rebuild_types (main_columns ++ columns) (main_cells r ++ cells) c =
  rebuild_types columns cells c.
Proof. reflexivity. Qed.

Lemma rebuild_type_column (s : string) (n : nat) (columns : list string)
                          (cells : list cell) (c : counter) :
  PyStr.contains s "Type_" = false ->
  rebuild_types (("Type_" ++ s) :: columns) (CInt (Z.of_nat n) :: cells) c =
  rebuild_types columns cells
                (if (0 <? n)%nat then counter_set c (KStr s) n else c).
Proof.
  intros Hs. cbn [rebuild_types].
  rewrite startswith_type_prefix, (replace_type_prefix s Hs), Nat2Z.id.
  replace (0 <? Z.of_nat n)%Z with (0 <? n)%nat; [reflexivity |].
  destruct n; reflexivity.
Qed.

Lemma rebuild_type_columns (float_repr : spec_float -> string) (r : row)
                           (keys : list pykey) :
  Forall plain_type_name keys ->
  forall c,
    rebuild_types (type_columns float_repr keys) (type_cells keys r) c =
    inr (fold_left (positive_entry (Component_Types r)) keys c).
Proof.
  induction 1 as [| k keys [s [-> Hs]] _ IH]; intros c.
  - reflexivity.
  - cbn [type_columns type_cells map py_str fold_left].
    rewrite (rebuild_type_column s _ _ _ _ Hs).
    apply IH.
Qed.

(** The rebuilt counter holds the positive entries of the columns read. *)
Lemma positive_entries_lookup (orig : counter) (keys : list pykey) :
  forall acc,
    (forall k n, counter_lookup acc k = Some n ->
                 n = counter_get orig k /\ 0 < n) ->
    forall k n,
      counter_lookup (fold_left (positive_entry orig) keys acc) k = Some n <->
      counter_lookup acc k = Some n \/
      (exists k0, In k0 keys /\ key_eqb k0 k = true /\
                  n = counter_get orig k /\ 0 < n).
Proof.
  induction keys as [| k0 keys IH]; intros acc Hacc k n; simpl.
  - split; [auto | intros [H | [k1 [[] _]]]; exact H].
  - assert (forall k' n',
              counter_lookup (positive_entry orig acc k0) k' = Some n' <->
              counter_lookup acc k' = Some n' \/
              (key_eqb k0 k' = true /\ n' = counter_get orig k' /\ 0 < n'))
      as Hstep.
    { intros k' n'. unfold positive_entry.
      destruct (Nat.ltb_spec 0 (counter_get orig k0)) as [Hpos | Hzero].
      - rewrite counter_lookup_set.
        destruct (key_eqb k0 k') eqn:E.
        + rewrite <- (counter_get_congr orig k0 k' E). split.
          * intros H. injection H as <-. right. auto.
          * intros [H | [_ [-> _]]]; [| reflexivity].
            apply Hacc in H. destruct H as [-> _].
            now rewrite (counter_get_congr orig k0 k' E).
        + split; [auto | intros [H | [H _]]; [exact H | discriminate]].
      - split; [auto | intros [H | [E [-> Hpos]]]; [exact H |]].
        rewrite <- (counter_get_congr orig k0 k' E) in Hpos. lia. }
    rewrite IH.
    + rewrite Hstep. split.
      * intros [[H | [E [-> Hpos]]] | [k1 [Hin H]]]; auto.
        -- right. exists k0. auto.
        -- right. exists k1. auto.
      * intros [H | [k1 [[<- | Hin] [E [-> Hpos]]]]]; auto.
        right. exists k1. auto.
    + intros k' n' H. apply Hstep in H.
      destruct H as [H | [_ H]]; [now apply Hacc | exact H].
Qed.

Lemma add_key_In (keys : list pykey) (k0 k : pykey) :
  In k (add_key keys k0) <->
  In k keys \/ (k = k0 /\ existsb (fun k' => key_eqb k' k0) keys = false).
Proof.
  unfold add_key.
  destruct (existsb (fun k' => key_eqb k' k0) keys).
  - split; [auto | intros [H | [_ H]]; [exact H | discriminate]].
  - rewrite in_app_iff. simpl. split.
    + intros [H | [<- | []]]; auto.
    + intros [H | [-> _]]; auto.
Qed.

Lemma add_keys_In (ks : list pykey) :
  forall keys k,
    In k (fold_left add_key ks keys) -> In k keys \/ In k ks.
Proof.
  induction ks as [| k0 ks IH]; intros keys k H; simpl in H; [auto |].
  apply IH in H. destruct H as [H | H]; [| right; now right].
  apply add_key_In in H. destruct H as [H | [-> _]]; [auto |].
  right. now left.
Qed.

Lemma add_key_covers (keys : list pykey) (k0 : pykey) :
  exists k', In k' (add_key keys k0) /\ key_eqb k' k0 = true.
Proof.
  unfold add_key.
  destruct (existsb (fun k' => key_eqb k' k0) keys) eqn:E.
  - apply existsb_exists in E. exact E.
  - exists k0. split; [apply in_or_app; right; now left |].
    apply key_eqb_refl.
Qed.

Lemma add_keys_keep (ks : list pykey) :
  forall keys k, In k keys -> In k (fold_left add_key ks keys).
Proof.
  induction ks as [| k0 ks IH]; intros keys k H; simpl; [exact H |].
  apply IH. apply add_key_In. auto.
Qed.

Lemma add_keys_cover (ks : list pykey) :
  forall keys k,
    In k ks ->
    exists k', In k' (fold_left add_key ks keys) /\ key_eqb k' k = true.
Proof.
  induction ks as [| k0 ks IH]; intros keys k H; simpl; [destruct H |].
  destruct H as [-> | H]; [| now apply IH].
  destruct (add_key_covers keys k) as [k' [Hin Hk]].
  exists k'. split; [| exact Hk]. now apply add_keys_keep.
Qed.

Lemma type_keys_from_rows (df : list row) (k : pykey) :
  In k (type_keys df) ->
  exists r, In r df /\ In k (map fst (Component_Types r)).
Proof.
  unfold type_keys.
  assert (forall keys,
            In k (fold_left
                    (fun keys r =>
                       fold_left add_key (map fst (Component_Types r)) keys)
                    df keys) ->
            In k keys \/
            exists r, In r df /\ In k (map fst (Component_Types r))) as H.
  { induction df as [| r df IH]; intros keys H; simpl in H; [auto |].
    apply IH in H. destruct H as [H | [r' [Hin H]]].
    - apply add_keys_In in H. destruct H as [H | H]; [auto |].
      right. exists r. split; [now left | exact H].
    - right. exists r'. split; [now right | exact H]. }
  intros Hin. destruct (H [] Hin) as [[] | Hr]. exact Hr.
Qed.

Lemma type_keys_cover (df : list row) (r : row) (k : pykey) :
  In r df -> In k (map fst (Component_Types r)) ->
  exists k', In k' (type_keys df) /\ key_eqb k' k = true.
Proof.
  unfold type_keys. generalize (@nil pykey).
  induction df as [| r0 df IH]; intros keys Hr Hk; simpl; [destruct Hr |].
  destruct Hr as [-> | Hr]; [| now apply IH].
  destruct (add_keys_cover _ keys k Hk) as [k' [Hin Hk']].
  exists k'. split; [| exact Hk'].
  clear - Hin. revert Hin.
  generalize (fold_left add_key (map fst (Component_Types r)) keys).
  induction df as [| r1 df IH]; intros keys' Hin; simpl; [exact Hin |].
  apply IH. now apply add_keys_keep.
Qed.

Lemma rebuild_exported_row (float_repr : spec_float -> string)
                           (df : list row) (r : row) :
  (forall r' k, In r' df -> In k (map fst (Component_Types r')) ->
                plain_type_name k) ->
  In r df ->
  exists rebuilt,
    rebuild_types (header (export_to_csv float_repr df))
                  (main_cells r ++ type_cells (type_keys df) r) [] =
      inr rebuilt /\
    positive_counts_of (Component_Types r) rebuilt.
Proof.
  intros Hnames Hr.
  exists (fold_left (positive_entry (Component_Types r)) (type_keys df) []).
  split.
  - cbn [export_to_csv header]. rewrite rebuild_skip_main.
    apply rebuild_type_columns. apply Forall_forall. intros k Hk.
    apply type_keys_from_rows in Hk. destruct Hk as [r' [Hr' Hk]].
    eapply Hnames; eassumption.
  - intros k n. rewrite positive_entries_lookup; [| discriminate]. split.
    + intros [H | [k0 [_ [_ [Hn Hpos]]]]]; [discriminate |].
      split; [exact Hpos |]. unfold counter_get in Hn.
      destruct (counter_lookup (Component_Types r) k); [now subst | lia].
    + intros [Hpos H]. right.
      destruct (counter_lookup_Some_In _ _ _ H) as [k1 [Hin Hk1]].
      destruct (type_keys_cover df r k1 Hr Hin) as [k' [Hin' Hk']].
      exists k'. split; [exact Hin' |].
      split; [eapply key_eqb_trans; eassumption |].
      split; [| exact Hpos]. unfold counter_get. now rewrite H.
Qed.

Lemma load_rows_cons (columns : list string) (cells : list cell)
                      (rest : list (list cell)) :
  load_rows columns (cells :: rest) =
  match rebuild_types columns cells [] with
  | inl e => inl e
  | inr comp_types =>
      match load_rows columns rest with
      | inl e => inl e
      | inr more => inr ((combine columns cells, comp_types) :: more)
      end
  end.
Proof.
  simpl. destruct (rebuild_types columns cells []); [reflexivity |].
  simpl. now destruct (load_rows columns rest).
Qed.

Lemma load_exported_rows (float_repr : spec_float -> string)
                         (df rows : list row) :
  (forall r' k, In r' df -> In k (map fst (Component_Types r')) ->
                plain_type_name k) ->
  (forall r, In r rows -> In r df) ->
  exists loaded,
    load_rows (header (export_to_csv float_repr df))
              (map (fun r => main_cells r ++ type_cells (type_keys df) r)%list
                   rows) = inr loaded /\
    Forall2 (fun r lr => positive_counts_of (Component_Types r) (snd lr))
            rows loaded.
Proof.
  intros Hnames. induction rows as [| r rows IH]; intros Hsub.
  - exists []. split; [reflexivity | constructor].
  - destruct (rebuild_exported_row float_repr df r Hnames
                (Hsub r (or_introl eq_refl))) as [rebuilt [Hreb Hpos]].
    destruct IH as [loaded [Hload Hall]].
    { intros r' Hr'. apply Hsub. now right. }
    eexists. split.
    + cbn [map]. rewrite load_rows_cons, Hreb, Hload. reflexivity.
    + constructor; [exact Hpos | exact Hall].
Qed.

(** C9: for a results table whose component type names are strings that
    do not hold the substring 'Type_', exporting with [export_to_csv] and
    reconstructing with [load_and_visualize_csv] returns, row by row, a
    counter whose entries are exactly the strictly positive counts of the
    row's original counter. *)
Theorem C9_csv_round_trip (float_repr : spec_float -> string)
                          (df : list row) :
  (forall r k, In r df -> In k (map fst (Component_Types r)) ->
               plain_type_name k) ->
  exists loaded,
    load_and_visualize_csv (export_to_csv float_repr df) = inr loaded /\
    Forall2 (fun r lr => positive_counts_of (Component_Types r) (snd lr))
            df loaded.
Proof.
  intros Hnames. unfold load_and_visualize_csv.
  destruct (load_exported_rows float_repr df df Hnames (fun r H => H))
    as [loaded [Hload Hall]].
  exists loaded. split; [exact Hload | exact Hall].
Qed.

(** C9 at a table of two rows over the types "algorithm" and "library". *)
Lemma C9_csv_round_trip_witness :
  exists loaded,
    load_and_visualize_csv
      (export_to_csv (fun _ => "nan")
         [{| Repository := "a"; Tool := "cbomkit"; Total_Components := 3;
             Is_Empty := false; Execution_Time := JNull;
             Component_Types := [(KStr "algorithm", 2); (KStr "library", 1)];
             Repository_Size := JNull; Java_Size := JNull |};
          {| Repository := "a"; Tool := "cdxgen"; Total_Components := 3;
             Is_Empty := false; Execution_Time := JNull;
             Component_Types := [(KStr "library", 3)];
             Repository_Size := JNull; Java_Size := JNull |}])
      = inr loaded /\
    map snd loaded = [[(KStr "algorithm", 2); (KStr "library", 1)];
                      [(KStr "library", 3)]].
Proof.
  destruct (C9_csv_round_trip (fun _ => "nan")
    [{| Repository := "a"; Tool := "cbomkit"; Total_Components := 3;
        Is_Empty := false; Execution_Time := JNull;
        Component_Types := [(KStr "algorithm", 2); (KStr "library", 1)];
        Repository_Size := JNull; Java_Size := JNull |};
     {| Repository := "a"; Tool := "cdxgen"; Total_Components := 3;
        Is_Empty := false; Execution_Time := JNull;
        Component_Types := [(KStr "library", 3)];
        Repository_Size := JNull; Java_Size := JNull |}])
    as [loaded [Hload _]].
  - intros r k [<- | [<- | []]]; simpl;
      intuition (subst; eexists; split; reflexivity).
  - exists loaded. split; [exact Hload |].
    vm_compute in Hload. injection Hload as <-. reflexivity.
Defined.

(** A missing [durations.json] gives the empty metrics dict, which has the
    shape the join expects: every Execution_Time is then None. *)
Lemma missing_metrics_file :
  _load_execution_times None = inr (JDict []) /\
  metrics_shaped (JDict []) = true /\
  forall repo_name tool, spec_duration (JDict []) repo_name tool = JNull.
Proof. repeat split. Qed.

(** A metrics file that is not JSON, or cannot be read, counts as missing. *)
Lemma unreadable_metrics_file (msg : string) :
  _load_execution_times (Some (inl (JSONDecodeError msg))) = inr (JDict []) /\
  _load_execution_times (Some (inl (OSError msg))) = inr (JDict []).
Proof. split; reflexivity. Qed.


(** ** The integer entries of the statistics *)

Lemma bool_sum_count (rows : list row) :
  bool_sum (map Is_Empty rows) = List.length (filter Is_Empty rows).
Proof.
  unfold bool_sum. induction rows as [| r rows IH]; simpl; [reflexivity |].
  destruct (Is_Empty r); simpl; now rewrite IH.
Qed.

(** [total_repos] is the number of the tool's rows, [empty_cboms] the
    number of those flagged empty, [non_empty_cboms] the number of the
    others, and [total_components] the sum of their component counts. *)
Lemma tool_statistics_counts (tool_df : list row) :
  Stats.total_repos (tool_statistics tool_df) = List.length tool_df /\
  Stats.empty_cboms (tool_statistics tool_df) =
    List.length (filter Is_Empty tool_df) /\
  Stats.empty_cboms (tool_statistics tool_df) +
  Stats.non_empty_cboms (tool_statistics tool_df) = List.length tool_df /\
  Stats.total_components (tool_statistics tool_df) =
    list_sum (map Total_Components tool_df).
Proof.
  unfold tool_statistics. cbn [Stats.total_repos Stats.empty_cboms
    Stats.non_empty_cboms Stats.total_components].
  rewrite bool_sum_count. repeat split.
  induction tool_df as [| r rows IH]; simpl; [reflexivity |].
  destruct (Is_Empty r); simpl; lia.
Qed.

(** The three tools of [TOOL_NAMES], and a tool name in capitals. *)
Lemma tool_names_classified :
  is_flat_tool "cdxgen" = true /\ is_flat_tool "deepseek" = true /\
  is_flat_tool "cbomkit" = false /\ is_flat_tool "CDXGEN" = true.
Proof. repeat split. Qed.

(* ===================================================================== *)
(** * Further properties of the analyzer *)
(* ===================================================================== *)

(** ** Payloads of the wrong shape *)

(** A payload whose top level is not what the tool produces (no dict for
    cdxgen and deepseek, no list for the others) is analysed as an empty
    CBOM: no exception, no error entry. *)
Theorem wrong_shape_is_empty (cbom_data : json) (tool_name : string) :
  (if is_flat_tool tool_name then is_dict cbom_data else is_list cbom_data)
    = false ->
  analyze_single_cbom cbom_data tool_name =
    inr {| total_components := 0; is_empty := true; component_types := [];
           error := None |}.
Proof.
  intros Hshape. unfold analyze_single_cbom.
  destruct (is_flat_tool tool_name) eqn:Ht.
  - rewrite (extract_components_flat _ _ Ht).
    destruct cbom_data; try discriminate; reflexivity.
  - rewrite (extract_components_nested _ _ Ht).
    destruct cbom_data; try discriminate; reflexivity.
Qed.

(** A cbomkit scan list handed to cdxgen, and JSON null handed to cbomkit. *)
Lemma wrong_shape_is_empty_witness :
  analyze_single_cbom
    (JList [JDict [("bom", JDict [("components", JList [JStr "x"])])]])
    "cdxgen" =
    inr {| total_components := 0; is_empty := true; component_types := [];
           error := None |} /\
  analyze_single_cbom JNull "cbomkit" =
    inr {| total_components := 0; is_empty := true; component_types := [];
           error := None |}.
Proof.
  split.
  - exact (wrong_shape_is_empty
             (JList [JDict [("bom", JDict [("components", JList [JStr "x"])])]])
             "cdxgen" eq_refl).
  - exact (wrong_shape_is_empty JNull "cbomkit" eq_refl).
Defined.

(** ** The tool name *)

Lemma lower_char_idempotent (c : ascii) :
  PyStr.lower_char (PyStr.lower_char c) = PyStr.lower_char c.
Proof. destruct c as [[] [] [] [] [] [] [] []]; reflexivity. Qed.

Lemma lower_idempotent (s : string) :
  PyStr.lower (PyStr.lower s) = PyStr.lower s.
Proof.
  induction s as [| c s IH]; simpl; [reflexivity |].
  now rewrite lower_char_idempotent, IH.
Qed.

Lemma component_type_by_class (t1 t2 : string) (comp : json) :
  is_flat_tool t1 = is_flat_tool t2 ->
  component_type t1 comp = component_type t2 comp.
Proof. intros H. unfold component_type. now rewrite H. Qed.

Lemma tally_by_class (t1 t2 : string) (comps : list json) :
  is_flat_tool t1 = is_flat_tool t2 ->
  forall c, tally t1 comps c = tally t2 comps c.
Proof.
  intros H. induction comps as [| comp rest IH]; intros c; simpl;
    [reflexivity |].
  rewrite (component_type_by_class t1 t2 comp H).
  destruct (component_type t2 comp) as [e | ty]; [reflexivity |]. simpl.
  destruct (key_of ty) as [e | k]; [reflexivity |]. simpl. apply IH.
Qed.

Lemma analyze_by_class (cbom_data : json) (t1 t2 : string) :
  is_flat_tool t1 = is_flat_tool t2 ->
  analyze_single_cbom cbom_data t1 = analyze_single_cbom cbom_data t2.
Proof.
  intros H. unfold analyze_single_cbom, extract_components. rewrite H.
  destruct (if is_flat_tool t2
            then if is_dict cbom_data
                 then py_get cbom_data "components" (JList [])
                 else ret (JList [])
            else catch (cbomkit_body cbom_data (JList []))
                       (fun _ => cbomkit_fallback cbom_data (JList [])))
    as [e | components]; [reflexivity |].
  simpl. destruct (py_iter components) as [e | comps]; [reflexivity |].
  simpl. now rewrite (tally_by_class t1 t2 comps H).
Qed.

(** The analysis looks at the tool name only to tell cdxgen and deepseek
    from the rest, and tells them whatever the letter case: a name gives
    the result of its lower case, cdxgen and deepseek give the same
    result, and every other name, known or not, gives that of cbomkit. *)
Theorem tool_name_only_by_class (cbom_data : json) (tool_name : string) :
  analyze_single_cbom cbom_data (PyStr.lower tool_name) =
    analyze_single_cbom cbom_data tool_name /\
  analyze_single_cbom cbom_data tool_name =
    analyze_single_cbom cbom_data
      (if is_flat_tool tool_name then "cdxgen" else "cbomkit") /\
  analyze_single_cbom cbom_data "deepseek" =
    analyze_single_cbom cbom_data "cdxgen".
Proof.
  split; [| split].
  - apply analyze_by_class. unfold is_flat_tool.
    now rewrite lower_idempotent.
  - apply analyze_by_class. now destruct (is_flat_tool tool_name).
  - now apply analyze_by_class.
Qed.

(** ** The tally counts components by type *)

Lemma counter_get_set (c : counter) (k k' : pykey) (n : nat) :
  counter_get (counter_set c k n) k' =
  if key_eqb k k' then n else counter_get c k'.
Proof.
  unfold counter_get. rewrite counter_lookup_set.
  now destruct (key_eqb k k').
Qed.

Lemma counter_get_incr_any (c : counter) (k0 k : pykey) :
  counter_get (counter_incr c k0) k =
  counter_get c k + (if key_eqb k0 k then 1 else 0).
Proof.
  unfold counter_incr. rewrite counter_get_set.
  destruct (key_eqb k0 k) eqn:E; [| lia].
  now rewrite (counter_get_congr c k0 k E).
Qed.

Lemma counter_set_keys (c : counter) (k : pykey) (n : nat) (k' : pykey) :
  In k' (map fst (counter_set c k n)) -> In k' (map fst c) \/ k' = k.
Proof.
  induction c as [| [k0 n0] c IH]; simpl.
  - intros [<- | []]. now right.
  - destruct (key_eqb k0 k); simpl.
    + intros [H | H]; auto.
    + intros [H | H]; [auto |]. destruct (IH H); auto.
Qed.

Lemma distinct_keys_set (c : counter) (k : pykey) (n : nat) :
  distinct_keys c = true -> distinct_keys (counter_set c k n) = true.
Proof.
  induction c as [| [k0 n0] c IH]; simpl; [reflexivity |].
  intros H. apply andb_true_iff in H. destruct H as [Hk0 Hc].
  destruct (key_eqb k0 k) eqn:E; simpl.
  - now rewrite Hk0, Hc.
  - rewrite (IH Hc), andb_true_r.
    apply negb_true_iff. apply negb_true_iff in Hk0.
    apply not_true_is_false. intros Hex.
    apply existsb_exists in Hex. destruct Hex as [k' [Hin Hk']].
    apply counter_set_keys in Hin. destruct Hin as [Hin | ->].
    + assert (existsb (fun k'0 => key_eqb k0 k'0) (map fst c) = true) as Hc'.
      { apply existsb_exists. eauto. }
      congruence.
    + congruence.
Qed.

Lemma counter_set_positive (c : counter) (k : pykey) (n : nat) :
  1 <= n ->
  Forall (fun kn => 1 <= snd kn) c ->
  Forall (fun kn => 1 <= snd kn) (counter_set c k n).
Proof.
  intros Hn Hc. induction c as [| [k0 n0] c IH]; simpl.
  - constructor; [exact Hn | constructor].
  - inversion Hc as [| ? ? H0 Hc']; subst.
    destruct (key_eqb k0 k); constructor; auto.
Qed.

Lemma counter_incr_ok (c : counter) (k : pykey) :
  counter_ok c -> counter_ok (counter_incr c k).
Proof.
  intros [Hd Hp]. split.
  - now apply distinct_keys_set.
  - apply counter_set_positive; [lia | exact Hp].
Qed.

Lemma count_key_cons (tool_name : string) (comp : json) (rest : list json)
                      (k : pykey) :
  count_key tool_name (comp :: rest) k =
  match component_key tool_name comp with
  | inr k' => if key_eqb k' k then 1 else 0
  | inl _ => 0
  end + count_key tool_name rest k.
Proof.
  unfold count_key. cbn [filter].
  destruct (component_key tool_name comp) as [e | k']; [reflexivity |].
  now destruct (key_eqb k' k).
Qed.

Lemma tally_histogram (tool_name : string) (comps : list json) :
  forall c c',
    tally tool_name comps c = inr c' ->
    (counter_ok c -> counter_ok c') /\
    forall k, counter_get c' k = counter_get c k + count_key tool_name comps k.
Proof.
  induction comps as [| comp rest IH]; intros c c' H.
  - simpl in H. injection H as <-.
    split; [auto | intros k; unfold count_key; simpl; lia].
  - assert (exists k0, component_key tool_name comp = inr k0 /\
                       tally tool_name rest (counter_incr c k0) = inr c')
      as [k0 [Hk0 Hrest]].
    { simpl in H. unfold component_key.
      destruct (component_type tool_name comp) as [e | ty]; [discriminate |].
      simpl in H. simpl.
      destruct (key_of ty) as [e | k0]; [discriminate |]. eauto. }
    apply IH in Hrest. destruct Hrest as [Hok Hget]. split.
    + intros Hc. apply Hok. now apply counter_incr_ok.
    + intros k. rewrite Hget, counter_get_incr_any, count_key_cons, Hk0.
      lia.
Qed.

(** The type counts of a returned analysis form a histogram of the
    extracted components: each key occurs once, no count is zero, and the
    count read under a key is the number of components whose type equals
    that key (a type that does not occur reads 0). *)
Theorem type_counts_are_a_histogram
    (cbom_data : json) (tool_name : string) (r : analysis) :
  analyze_single_cbom cbom_data tool_name = inr r ->
  exists comps,
    py_iter (spec_components cbom_data tool_name) = inr comps /\
    counter_ok (component_types r) /\
    forall k, counter_get (component_types r) k
              = count_key tool_name comps k.
Proof.
  intros H. apply analyze_single_cbom_inr in H.
  destruct H as [components [comps [Hext [Hiter [Htally _]]]]].
  rewrite extract_components_spec in Hext. injection Hext as <-.
  exists comps. split; [exact Hiter |].
  apply tally_histogram in Htally. destruct Htally as [Hok Hget].
  split.
  - apply Hok. split; [reflexivity | constructor].
  - intros k. now rewrite Hget.
Qed.

(** Three components, two of them of one type, the third no dict. *)
Lemma type_counts_are_a_histogram_witness :
  exists r,
    analyze_single_cbom
      (JDict [("components",
               JList [JDict [("type", JStr "library")]; JInt 7;
                      JDict [("type", JStr "library")]])])
      "cdxgen" = inr r /\
    counter_get (component_types r) (KStr "library") = 2 /\
    counter_get (component_types r) (KStr "unknown") = 1 /\
    counter_get (component_types r) (KStr "algorithm") = 0.
Proof.
  eexists. split; [reflexivity |].
  destruct (type_counts_are_a_histogram
    (JDict [("components",
             JList [JDict [("type", JStr "library")]; JInt 7;
                    JDict [("type", JStr "library")]])])
    "cdxgen" _ eq_refl) as [comps [Hiter [_ Hget]]].
  vm_compute in Hiter. injection Hiter as <-.
  repeat split; rewrite Hget; reflexivity.
Defined.

(** ** The statistics per tool *)

Lemma statistics_for_keys (tools : list string) (df : list row) :
  map fst (statistics_for tools df) =
  filter (fun tool => match tool_rows df tool with
                      | [] => false
                      | _ => true
                      end) tools.
Proof.
  induction tools as [| tool rest IH]; simpl; [reflexivity |].
  destruct (tool_rows df tool); simpl; now rewrite IH.
Qed.

Lemma tool_rows_nonempty (df : list row) (tool : string) :
  tool_rows df tool <> [] <-> exists r, In r df /\ Tool r = tool.
Proof.
  unfold tool_rows. split.
  - destruct (filter (fun r => (Tool r =? tool)%string) df) as [| r rows] eqn:E;
      [congruence |].
    intros _. assert (In r (r :: rows)) as Hin by now left.
    rewrite <- E in Hin. apply filter_In in Hin. destruct Hin as [Hin Ht].
    exists r. split; [exact Hin | now apply String.eqb_eq].
  - intros [r [Hin <-]] E.
    assert (In r (filter (fun r0 => (Tool r0 =? Tool r)%string) df)) as H.
    { apply filter_In. split; [exact Hin | apply String.eqb_refl]. }
    rewrite E in H. destruct H.
Qed.

(** The statistics have one entry for each tool of [TOOL_NAMES] that has
    at least one row, in the order of [TOOL_NAMES], computed from exactly
    that tool's rows; rows of any other tool get no entry.  The tools the
    tables and charts go through are those entries' keys. *)
Theorem statistics_only_for_known_tools (df : list row) :
  NoDup (map fst (_calculate_statistics df)) /\
  (forall tool,
     In tool (map fst (_calculate_statistics df)) <->
     In tool TOOL_NAMES /\ exists r, In r df /\ Tool r = tool) /\
  (forall tool st,
     In (tool, st) (_calculate_statistics df) ->
     st = tool_statistics (tool_rows df tool)) /\
  available_tools (_calculate_statistics df) =
    map fst (_calculate_statistics df).
Proof.
  unfold _calculate_statistics. split; [| split; [| split]].
  - rewrite statistics_for_keys. apply NoDup_filter.
    unfold TOOL_NAMES. solve_NoDup.
  - intros tool. rewrite statistics_for_keys, filter_In.
    rewrite <- tool_rows_nonempty.
    split; intros [Hin H]; split; try exact Hin.
    + intros E. now rewrite E in H.
    + destruct (tool_rows df tool); [congruence | reflexivity].
  - intros tool st H. now apply statistics_for_In in H.
  - unfold available_tools, TOOL_NAMES. simpl.
    destruct (tool_rows df "cbomkit"), (tool_rows df "cdxgen"),
      (tool_rows df "deepseek"); reflexivity.
Qed.

Lemma statistics_for_sum (field : Stats.t -> nat) (tools : list string)
                         (df : list row) :
  field (tool_statistics []) = 0 ->
  list_sum (map (fun ts => field (snd ts)) (statistics_for tools df)) =
  list_sum (map (fun tool => field (tool_statistics (tool_rows df tool)))
                tools).
Proof.
  intros H0. induction tools as [| tool rest IH]; simpl; [reflexivity |].
  destruct (tool_rows df tool) as [| r rows] eqn:E; simpl.
  - now rewrite IH, H0.
  - now rewrite IH.
Qed.

Lemma known_tools_partition (measure : row -> nat) (df : list row) :
  list_sum (map (fun tool => list_sum (map measure (tool_rows df tool)))
                TOOL_NAMES) =
  list_sum (map measure (known_tool_rows df)).
Proof.
  unfold known_tool_rows, tool_rows, TOOL_NAMES.
  induction df as [| r df IH]; [reflexivity |].
  cbn [filter existsb map list_sum] in *.
  destruct (String.eqb_spec (Tool r) "cbomkit") as [E1 | _];
    destruct (String.eqb_spec (Tool r) "cdxgen") as [E2 | _];
    destruct (String.eqb_spec (Tool r) "deepseek") as [E3 | _];
    try (rewrite E1 in *; discriminate);
    try (rewrite E2 in *; discriminate);
    cbn [orb map]; unfold list_sum in *; cbn [fold_right] in *; lia.
Qed.

(** The statistics split the rows of the known tools among the tools: the
    [total_repos] of all entries add up to the number of those rows, and
    the [total_components] to the sum of their component counts; within
    an entry the empty and the non-empty CBOMs add up to [total_repos],
    which is at least one. *)
Theorem statistics_partition_rows (df : list row) :
  list_sum (map (fun ts => Stats.total_repos (snd ts))
                (_calculate_statistics df)) =
    List.length (known_tool_rows df) /\
  list_sum (map (fun ts => Stats.total_components (snd ts))
                (_calculate_statistics df)) =
    list_sum (map Total_Components (known_tool_rows df)) /\
  Forall (fun ts =>
            Stats.empty_cboms (snd ts) + Stats.non_empty_cboms (snd ts)
              = Stats.total_repos (snd ts) /\
            1 <= Stats.total_repos (snd ts))
         (_calculate_statistics df).
Proof.
  unfold _calculate_statistics. split; [| split].
  - rewrite statistics_for_sum by reflexivity.
    cbn [tool_statistics Stats.total_repos].
    rewrite <- (length_map (fun _ => 1) (known_tool_rows df)).
    replace (List.length (map (fun _ : row => 1) (known_tool_rows df)))
      with (list_sum (map (fun _ : row => 1) (known_tool_rows df))).
    + rewrite <- known_tools_partition.
      f_equal. apply map_ext. intros tool.
      induction (tool_rows df tool) as [| r rows IH]; simpl; [reflexivity |].
      now rewrite IH.
    + induction (known_tool_rows df) as [| r rows IH]; simpl; [reflexivity |].
      now rewrite IH.
  - rewrite statistics_for_sum by reflexivity.
    cbn [tool_statistics Stats.total_components]. unfold column_sum.
    apply known_tools_partition.
  - apply Forall_forall. intros [tool st] Hin. simpl.
    apply statistics_for_In in Hin. destruct Hin as [-> Hne].
    destruct (tool_statistics_counts (tool_rows df tool))
      as [Hrepos [_ [Hsum _]]].
    rewrite Hrepos. split; [exact Hsum |].
    destruct (tool_rows df tool); [congruence | simpl; lia].
Qed.

(** ** Aggregation of the type counts, type by type *)

Lemma counter_get_absent (c : counter) (k : pykey) :
  existsb (fun k' => key_eqb k k') (map fst c) = false ->
  counter_get c k = 0.
Proof.
  unfold counter_get. induction c as [| [k0 n0] c IH]; simpl;
    [reflexivity |].
  intros H. apply orb_false_iff in H. destruct H as [Hk0 Hc].
  rewrite key_eqb_sym, Hk0. now apply IH.
Qed.

Lemma existsb_key_congr (k k' : pykey) (keys : list pykey) :
  key_eqb k k' = true ->
  existsb (fun x => key_eqb k x) keys = existsb (fun x => key_eqb k' x) keys.
Proof.
  intros H. induction keys as [| x keys IH]; simpl; [reflexivity |].
  now rewrite (key_eqb_congr k k' x H), IH.
Qed.

Lemma counter_get_cons (k0 : pykey) (n0 : nat) (c : counter) (k : pykey) :
  counter_get ((k0, n0) :: c) k =
  if key_eqb k0 k then n0 else counter_get c k.
Proof. unfold counter_get. simpl. now destruct (key_eqb k0 k). Qed.

Lemma counter_get_update (other : counter) :
  distinct_keys other = true ->
  forall c k,
    counter_get (counter_update c other) k =
    counter_get c k + counter_get other k.
Proof.
  unfold counter_update.
  induction other as [| [k0 n0] other IH]; intros Hd c k.
  - simpl. unfold counter_get at 3. simpl. lia.
  - simpl in Hd. apply andb_true_iff in Hd. destruct Hd as [Hk0 Hd].
    apply negb_true_iff in Hk0.
    cbn [fold_left fst snd].
    rewrite (IH Hd), counter_get_set, counter_get_cons.
    destruct (key_eqb k0 k) eqn:E.
    + rewrite (counter_get_congr c k0 k E).
      rewrite (counter_get_absent other k); [lia |].
      now rewrite <- (existsb_key_congr k0 k _ E).
    + lia.
Qed.

Lemma counter_update_ok (other : counter) :
  Forall (fun kn => 1 <= snd kn) other ->
  forall c, counter_ok c -> counter_ok (counter_update c other).
Proof.
  unfold counter_update.
  induction 1 as [| [k0 n0] other Hn _ IH]; intros c Hc; simpl;
    [exact Hc |].
  apply IH. destruct Hc as [Hd Hp]. split.
  - now apply distinct_keys_set.
  - apply counter_set_positive; [simpl in Hn; lia | exact Hp].
Qed.

Lemma aggregate_get (rows : list row) (k : pykey) :
  Forall (fun r => counter_ok (Component_Types r)) rows ->
  forall c,
    counter_ok c ->
    counter_ok (fold_left counter_update (map Component_Types rows) c) /\
    counter_get (fold_left counter_update (map Component_Types rows) c) k =
    counter_get c k +
    list_sum (map (fun r => counter_get (Component_Types r) k) rows).
Proof.
  induction 1 as [| r rows [Hd Hp] _ IH]; intros c Hc; simpl.
  - split; [exact Hc | lia].
  - destruct (IH (counter_update c (Component_Types r))) as [Hok Hget].
    { now apply counter_update_ok. }
    split; [exact Hok |].
    rewrite Hget, (counter_get_update _ Hd). lia.
Qed.

Lemma stored_record_counter_ok (tool : string) (loaded : py json) :
  counter_ok (component_types (stored_record tool loaded)).
Proof.
  assert (counter_ok []) as Hnil by (split; [reflexivity | constructor]).
  unfold stored_record. destruct loaded as [e | cbom_data]; simpl;
    [exact Hnil |].
  destruct (analyze_single_cbom cbom_data tool) as [e | r] eqn:E;
    [exact Hnil |].
  apply analyze_single_cbom_inr in E.
  destruct E as [_ [comps [_ [_ [Htally _]]]]].
  apply tally_histogram in Htally. now apply Htally.
Qed.

Lemma analyze_files_invariant (P : analysis -> Prop) (tool : string)
                              (cbom_files : listing) :
  (forall loaded, P (stored_record tool loaded)) ->
  forall cd cd',
    Forall P (store_records cd) ->
    analyze_files tool cbom_files cd = inr cd' ->
    Forall P (store_records cd').
Proof.
  intros HP.
  induction cbom_files as [| [cbom_file loaded] rest IH]; intros cd cd' Hcd H;
    simpl in H.
  - now injection H as <-.
  - rewrite analyze_file_eq in H. simpl in H.
    eapply IH; [| eassumption].
    apply store_set_invariant; [apply HP | assumption].
Qed.

Lemma analyze_tools_invariant (P : analysis -> Prop) (tree : cbom_tree)
                              (tools : list string) :
  (forall tool loaded, P (stored_record tool loaded)) ->
  forall cd cd',
    Forall P (store_records cd) ->
    analyze_tools tree tools cd = inr cd' ->
    Forall P (store_records cd').
Proof.
  intros HP.
  induction tools as [| tool rest IH]; intros cd cd' Hcd H; simpl in H.
  - now injection H as <-.
  - destruct (tree tool) as [[e | names] |]; simpl in H.
    + discriminate.
    + bind_inv H. eapply IH; [| eassumption].
      eapply analyze_files_invariant; [apply HP | | eassumption].
      assumption.
    + eapply IH; eassumption.
Qed.

(** In the statistics of a report, the count a tool has for a type is the
    sum of the counts its rows have for that type, for every type (a type
    no row has reads 0), and the aggregate is again a counter with each
    key once and no zero count. *)
Theorem aggregate_counts_type_by_type
    (tree : cbom_tree) (cd : store) (execution_times : json)
    (repo_sizes : list (string * (json * json)))
    (cd' : store) (df : list row) (stats : list (string * Stats.t))
    (tool : string) (st : Stats.t) :
  Forall (fun a => counter_ok (component_types a)) (store_records cd) ->
  generate_comparison_report tree cd execution_times repo_sizes
    = inr (cd', df, stats) ->
  In (tool, st) stats ->
  counter_ok (Stats.component_types st) /\
  forall k,
    counter_get (Stats.component_types st) k =
    list_sum (map (fun r => counter_get (Component_Types r) k)
                  (tool_rows df tool)).
Proof.
  intros Hcd Hrep Hin. unfold generate_comparison_report in Hrep.
  bind_inv Hrep. bind_inv Hrep.
  assert (Forall (fun a => counter_ok (component_types a)) (store_records x))
    as Hx1.
  { eapply (analyze_tools_invariant
              (fun a => counter_ok (component_types a)));
      [apply stored_record_counter_ok | exact Hcd | exact Hx]. }
  assert (Forall (fun r => counter_ok (Component_Types r)) x0) as Hrows.
  { apply build_results_from_store in Hx0.
    eapply Forall_impl; [| exact Hx0].
    intros r [a [Ha [_ [_ Hc]]]]. rewrite Hc.
    rewrite Forall_forall in Hx1. apply (Hx1 a Ha). }
  destruct x0 as [| r0 rows0].
  - injection Hrep as <- <- <-. destruct Hin.
  - injection Hrep as <- <- <-.
    apply statistics_for_In in Hin. destruct Hin as [-> _].
    assert (Forall (fun r => counter_ok (Component_Types r))
                   (tool_rows (r0 :: rows0) tool)) as Htool.
    { unfold tool_rows. apply Forall_forall. intros r Hr.
      apply filter_In in Hr. destruct Hr as [Hr _].
      rewrite Forall_forall in Hrows. now apply Hrows. }
    assert (counter_ok []) as Hnil by (split; [reflexivity | constructor]).
    unfold tool_statistics. cbn [Stats.component_types]. split.
    + apply (aggregate_get _ KNone Htool [] Hnil).
    + intros k. destruct (aggregate_get _ k Htool [] Hnil) as [_ ->].
      reflexivity.
Qed.

(** At the example run, with a second file that also has a library. *)
Lemma aggregate_counts_type_by_type_witness :
  exists cd' df stats st,
    generate_comparison_report
      (fun tool =>
         if String.eqb tool "cdxgen" then
           Some (inr [("a.json",
                       inr (JDict [("components",
                                    JList [JDict [("type", JStr "library")];
                                           JInt 7])]));
                      ("b.json",
                       inr (JDict [("components",
                                    JList [JDict [("type", JStr "library")]])]))])
         else None)
      [] (JDict []) [] = inr (cd', df, stats) /\
    In ("cdxgen", st) stats /\
    counter_get (Stats.component_types st) (KStr "library") = 2 /\
    counter_get (Stats.component_types st) (KStr "unknown") = 1.
Proof.
  destruct (generate_comparison_report
      (fun tool =>
         if String.eqb tool "cdxgen" then
           Some (inr [("a.json",
                       inr (JDict [("components",
                                    JList [JDict [("type", JStr "library")];
                                           JInt 7])]));
                      ("b.json",
                       inr (JDict [("components",
                                    JList [JDict [("type", JStr "library")]])]))])
         else None)
      [] (JDict []) []) as [e | [[cd' df] stats]] eqn:E; [discriminate E |].
  pose proof (fun st =>
                aggregate_counts_type_by_type _ _ _ _ cd' df stats "cdxgen" st
                  (Forall_nil _ : Forall _ (store_records [])) E) as T.
  vm_compute in E. injection E as <- <- <-.
  eexists _, _, _, _. split; [reflexivity |].
  split; [left; reflexivity |].
  destruct (T _ (or_introl eq_refl)) as [_ Hget].
  split; rewrite Hget; reflexivity.
Defined.

(** ** What a run leaves in the store *)

Lemma store_lookup_set (cd : store) (repo_name tool : string) (a : analysis)
                       (repo_name' tool' : string) :
  store_lookup (store_set cd repo_name tool a) repo_name' tool' =
  if String.eqb repo_name repo_name' && String.eqb tool tool'
  then Some a else store_lookup cd repo_name' tool'.
Proof.
  destruct (String.eqb_spec repo_name repo_name') as [<- | Hr];
    destruct (String.eqb_spec tool tool') as [<- | Ht]; simpl.
  - apply store_lookup_set_eq.
  - apply store_lookup_set_other. now right.
  - apply store_lookup_set_other. now left.
  - apply store_lookup_set_other. now left.
Qed.

Lemma analyze_files_lookup (tool : string) (cbom_files : listing) :
  forall cd cd',
    analyze_files tool cbom_files cd = inr cd' ->
    forall repo_name tool',
      store_lookup cd' repo_name tool' =
      if String.eqb tool tool' then
        match last_loaded cbom_files repo_name with
        | Some loaded => Some (stored_record tool loaded)
        | None => store_lookup cd repo_name tool'
        end
      else store_lookup cd repo_name tool'.
Proof.
  induction cbom_files as [| [cbom_file loaded] rest IH];
    intros cd cd' H repo_name tool'; simpl in H.
  - injection H as <-. simpl. now destruct (String.eqb tool tool').
  - rewrite analyze_file_eq in H. simpl in H.
    rewrite (IH _ _ H repo_name tool'), store_lookup_set. simpl.
    destruct (String.eqb tool tool'); [| now rewrite andb_false_r].
    destruct (last_loaded rest repo_name); [reflexivity |].
    rewrite andb_true_r.
    now destruct (String.eqb (PyStr.splitext_root cbom_file) repo_name).
Qed.

Lemma analyze_tools_lookup (tree : cbom_tree) (tools : list string) :
  NoDup tools ->
  forall cd cd',
    analyze_tools tree tools cd = inr cd' ->
    forall repo_name tool,
      store_lookup cd' repo_name tool =
      match last_loaded
              (if existsb (String.eqb tool) tools then
                 match tree tool with
                 | Some (inr names) =>
                     filter (fun f => PyStr.endswith (fst f) ".json") names
                 | _ => []
                 end
               else []) repo_name with
      | Some loaded => Some (stored_record tool loaded)
      | None => store_lookup cd repo_name tool
      end.
Proof.
  induction 1 as [| t rest Hnotin Hnd IH]; intros cd cd' H repo_name tool;
    simpl in H.
  - injection H as <-. reflexivity.
  - cbn [existsb].
    assert (forall cd1,
              analyze_tools tree rest cd1 = inr cd' ->
              String.eqb tool t = true ->
              store_lookup cd' repo_name tool
              = store_lookup cd1 repo_name tool) as Hsame.
    { intros cd1 H1 Et. apply String.eqb_eq in Et. subst t.
      rewrite (IH _ _ H1 repo_name tool).
      assert (existsb (String.eqb tool) rest = false) as ->.
      { apply not_true_is_false. intros Hex. apply existsb_exists in Hex.
        destruct Hex as [x [Hin Hx]]. apply String.eqb_eq in Hx. now subst x. }
      reflexivity. }
    destruct (tree t) as [[e | names] |] eqn:Et; simpl in H.
    + discriminate.
    + bind_inv H.
      pose proof (analyze_files_lookup _ _ _ _ Hx repo_name tool) as Hfiles.
      rewrite (String.eqb_sym t tool) in Hfiles.
      destruct (String.eqb tool t) eqn:E; simpl.
      * rewrite (Hsame _ H eq_refl), Hfiles.
        apply String.eqb_eq in E. subst t. now rewrite Et.
      * rewrite (IH _ _ H repo_name tool), Hfiles. reflexivity.
    + destruct (String.eqb tool t) eqn:E; simpl.
      * rewrite (Hsame _ H eq_refl). apply String.eqb_eq in E. subst t.
        now rewrite Et.
      * apply (IH _ _ H).
Qed.

Lemma last_loaded_none (cbom_files : listing) (repo_name : string) :
  (forall f l, In (f, l) cbom_files -> PyStr.splitext_root f <> repo_name) ->
  last_loaded cbom_files repo_name = None.
Proof.
  induction cbom_files as [| [f l] rest IH]; intros Hnames; simpl;
    [reflexivity |].
  rewrite IH by (intros f' l' Hin; apply (Hnames f' l'); now right).
  destruct (String.eqb_spec (PyStr.splitext_root f) repo_name) as [E | _];
    [| reflexivity].
  exfalso. apply (Hnames f l); [now left | exact E].
Qed.

Lemma last_loaded_split (before after : listing) (cbom_file : string)
                        (loaded : py json) :
  (forall f l, In (f, l) after ->
               PyStr.splitext_root f <> PyStr.splitext_root cbom_file) ->
  last_loaded (before ++ (cbom_file, loaded) :: after)%list
              (PyStr.splitext_root cbom_file) = Some loaded.
Proof.
  intros Hafter. induction before as [| [f l] before IH]; simpl.
  - rewrite (last_loaded_none _ _ Hafter). now rewrite String.eqb_refl.
  - now rewrite IH.
Qed.

(** C4: in a run over tool directories that can be listed,
    [analyze_all_cboms] returns, and every [*.json] file of every tool
    directory has its record in the store under its (repository, tool)
    pair, unless a later file of that directory has the same repository
    name: the error record (total_components 0, is_empty true, no type
    counts, the message of the exception) when reading, parsing or
    analysing the file raised, and the analysis otherwise.  So a file
    that raises is recorded, the files after it are still analysed, and
    no file makes the run raise.  The turn of the loop for a file that
    raises always returns, with the error record stored for its pair. *)
Theorem C4_error_record_and_continue (tree : cbom_tree) (cd : store) :
  (forall tool e, tree tool <> Some (inl e)) ->
  (exists cd',
    analyze_all_cboms tree cd = inr cd' /\
    forall tool names before cbom_file loaded after,
      In tool TOOL_NAMES ->
      tree tool = Some (inr names) ->
      filter (fun f => PyStr.endswith (fst f) ".json") names
        = (before ++ (cbom_file, loaded) :: after)%list ->
      (forall f l, In (f, l) after ->
                   PyStr.splitext_root f <> PyStr.splitext_root cbom_file) ->
      (forall e,
         (cbom_data <- loaded ;; analyze_single_cbom cbom_data tool) = inl e ->
         store_lookup cd' (PyStr.splitext_root cbom_file) tool =
           Some {| total_components := 0; is_empty := true;
                   component_types := []; error := Some (str_of_exn e) |}) /\
      (forall a,
         (cbom_data <- loaded ;; analyze_single_cbom cbom_data tool) = inr a ->
         store_lookup cd' (PyStr.splitext_root cbom_file) tool = Some a)) /\
  (forall tool cbom_file loaded cd0 e,
     (cbom_data <- loaded ;; analyze_single_cbom cbom_data tool) = inl e ->
     analyze_file tool cbom_file loaded cd0 =
       inr (store_set cd0 (PyStr.splitext_root cbom_file) tool
              {| total_components := 0; is_empty := true;
                 component_types := []; error := Some (str_of_exn e) |}) /\
     store_lookup
       (store_set cd0 (PyStr.splitext_root cbom_file) tool
          {| total_components := 0; is_empty := true;
             component_types := []; error := Some (str_of_exn e) |})
       (PyStr.splitext_root cbom_file) tool
     = Some {| total_components := 0; is_empty := true;
               component_types := []; error := Some (str_of_exn e) |}).
Proof.
  intros Hls.
  split.
  2:{ intros tool cbom_file loaded cd0 e He.
      split; [| apply store_lookup_set_eq].
      rewrite analyze_file_eq. unfold stored_record. now rewrite He. }
  destruct (analyze_tools_returns tree TOOL_NAMES Hls cd) as [cd' Hrun].
  exists cd'. split; [exact Hrun |].
  intros tool names before cbom_file loaded after Htool Htree Hfiles Hafter.
  assert (store_lookup cd' (PyStr.splitext_root cbom_file) tool =
          Some (stored_record tool loaded)) as Hrec.
  { assert (NoDup TOOL_NAMES) as Hnd by solve_NoDup.
    rewrite (analyze_tools_lookup tree TOOL_NAMES Hnd cd cd' Hrun).
    assert (existsb (String.eqb tool) TOOL_NAMES = true) as ->.
    { apply existsb_exists. exists tool. split; [exact Htool |].
      apply String.eqb_refl. }
    rewrite Htree, Hfiles.
    now rewrite (last_loaded_split before after cbom_file loaded Hafter). }
  split.
  - intros e He. rewrite Hrec. unfold stored_record. now rewrite He.
  - intros a Ha. rewrite Hrec. unfold stored_record. now rewrite Ha.
Qed.

(** C4 at a run over a cdxgen directory with two good files around one
    that is not JSON, and a cbomkit directory with an unreadable file: the
    broken files have their error records and the good ones their
    analyses. *)
Lemma C4_error_record_and_continue_witness :
  let good := inr (JDict [("components",
                           JList [JDict [("type", JStr "library")]])]) in
  let broken := inl (JSONDecodeError "Expecting value") in
  let tree := fun tool : string =>
    if String.eqb tool "cdxgen" then
      Some (inr [("first.json", good); ("broken.json", broken);
                 ("notes.txt", inl (OSError "not read"));
                 ("last.json", good)])
    else if String.eqb tool "cbomkit" then
      Some (inr [("locked.json", inl (OSError "Permission denied"))])
    else None in
  exists cd',
    analyze_all_cboms tree [] = inr cd' /\
    store_lookup cd' "broken" "cdxgen" =
      Some {| total_components := 0; is_empty := true; component_types := [];
              error := Some "Expecting value" |} /\
    store_lookup cd' "last" "cdxgen" =
      Some {| total_components := 1; is_empty := false;
              component_types := [(KStr "library", 1)]; error := None |} /\
    store_lookup cd' "locked" "cbomkit" =
      Some {| total_components := 0; is_empty := true; component_types := [];
              error := Some "Permission denied" |}.
Proof.
  intros good broken tree.
  destruct (C4_error_record_and_continue tree []) as [[cd' [Hrun Hfiles]] _].
  - intros tool e. unfold tree.
    destruct (String.eqb tool "cdxgen"); [discriminate |].
    destruct (String.eqb tool "cbomkit"); discriminate.
  - exists cd'. split; [exact Hrun |].
    split; [| split].
    + apply (proj1 (Hfiles "cdxgen" _ [("first.json", good)] "broken.json"
                      broken [("last.json", good)]
                      (or_intror (or_introl eq_refl)) eq_refl eq_refl
                      ltac:(intros f l [H | []]; injection H as <- _;
                            discriminate))
               (JSONDecodeError "Expecting value") eq_refl).
    + apply (proj2 (Hfiles "cdxgen" _
                      [("first.json", good); ("broken.json", broken)]
                      "last.json" good []
                      (or_intror (or_introl eq_refl)) eq_refl eq_refl
                      ltac:(intros f l []))
               _ eq_refl).
    + apply (proj1 (Hfiles "cbomkit" _ [] "locked.json"
                      (inl (OSError "Permission denied")) []
                      (or_introl eq_refl) eq_refl eq_refl
                      ltac:(intros f l []))
               (OSError "Permission denied") eq_refl).
Defined.

(** After a run, the entry of a (repository, tool) pair is the record of
    the last file read for that tool with that repository name (the
    analysis, or the error record when loading or analysing raised); a
    pair for which no file was read keeps the entry it had, or stays
    without one.  Hence results of files that are gone stay in the store,
    and a second run over the same directory changes no entry. *)
Theorem run_result_by_entry (tree : cbom_tree) (cd cd' : store) :
  analyze_all_cboms tree cd = inr cd' ->
  (forall repo_name tool,
     store_lookup cd' repo_name tool =
     match last_loaded (files_read tree tool) repo_name with
     | Some loaded => Some (stored_record tool loaded)
     | None => store_lookup cd repo_name tool
     end) /\
  (forall cd'',
     analyze_all_cboms tree cd' = inr cd'' ->
     forall repo_name tool,
       store_lookup cd'' repo_name tool = store_lookup cd' repo_name tool).
Proof.
  assert (NoDup TOOL_NAMES) as Hnd by (unfold TOOL_NAMES; solve_NoDup).
  intros H.
  pose proof (analyze_tools_lookup tree TOOL_NAMES Hnd _ _ H) as H1.
  split.
  - intros repo_name tool. rewrite H1. unfold files_read.
    now destruct (existsb (String.eqb tool) TOOL_NAMES), (tree tool)
      as [[e | names] |].
  - intros cd'' H' repo_name tool.
    rewrite (analyze_tools_lookup tree TOOL_NAMES Hnd _ _ H' repo_name tool).
    rewrite (H1 repo_name tool).
    now destruct (last_loaded _ repo_name).
Qed.

(** At the example run, started from a store that holds an older result. *)
Lemma run_result_by_entry_witness :
  exists cd',
    analyze_all_cboms example_tree
      [("old", [("deepseek", error_record (OSError "gone"))])] = inr cd' /\
    store_lookup cd' "old" "deepseek" = Some (error_record (OSError "gone")) /\
    store_lookup cd' "b" "cdxgen" =
      Some (error_record (JSONDecodeError "Expecting value")) /\
    store_lookup cd' "notes" "cbomkit" = None.
Proof.
  destruct (analyze_all_cboms example_tree
              [("old", [("deepseek", error_record (OSError "gone"))])])
    as [e | cd'] eqn:E; [discriminate E |].
  exists cd'. split; [reflexivity |].
  destruct (run_result_by_entry _ _ _ E) as [Hlook _].
  repeat split; rewrite Hlook; reflexivity.
Defined.

(** ** When the join returns *)

Lemma exec_time_of_returns (execution_times : json) (repo_name tool : string) :
  (exists v, exec_time_of execution_times repo_name tool = inr v) <->
  entry_shaped execution_times repo_name tool = true.
Proof.
  unfold exec_time_of, entry_shaped, py_get.
  destruct execution_times as [| | | | | | by_repo]; simpl;
    try (split; [intros [v H]; discriminate | discriminate]).
  unfold dict_get at 1.
  destruct (dict_lookup by_repo repo_name) as [v |]; simpl;
    [| split; eauto].
  destruct v as [| | | | | | by_tool]; simpl;
    try (split; [intros [v H]; discriminate | discriminate]).
  unfold dict_get at 1.
  destruct (dict_lookup by_tool tool) as [w |]; simpl; [| split; eauto].
  destruct w; simpl;
    try (split; [intros [v H]; discriminate | discriminate]).
  split; eauto.
Qed.

Lemma exec_time_of_raises (execution_times : json) (repo_name tool : string)
                          (e : exn) :
  exec_time_of execution_times repo_name tool = inl e ->
  exists msg, e = AttributeError msg.
Proof.
  unfold exec_time_of, py_get.
  destruct execution_times as [| | | | | | by_repo]; simpl;
    try (intros H; injection H as <-; eauto; fail).
  destruct (dict_get by_repo repo_name (JDict [])) as [| | | | | | by_tool];
    simpl; try (intros H; injection H as <-; eauto; fail).
  destruct (dict_get by_tool tool (JDict [])); simpl;
    try (intros H; injection H as <-; eauto; fail).
  discriminate.
Qed.

Lemma repo_rows_returns (execution_times : json) (repo_name : string)
    (sizes : json * json) (tools_data : list (string * analysis)) :
  match repo_rows execution_times repo_name sizes tools_data with
  | inr _ =>
      forall tool, In tool (map fst tools_data) ->
                   entry_shaped execution_times repo_name tool = true
  | inl e =>
      (exists msg, e = AttributeError msg) /\
      exists tool, In tool (map fst tools_data) /\
                   entry_shaped execution_times repo_name tool = false
  end.
Proof.
  induction tools_data as [| [tool data] rest IH]; simpl.
  - intros tool [].
  - destruct (exec_time_of execution_times repo_name tool) as [e | v] eqn:E;
      simpl.
    + split; [now apply exec_time_of_raises in E |].
      exists tool. split; [now left |].
      apply not_true_is_false. intros Hs.
      apply exec_time_of_returns in Hs. destruct Hs as [v Hv]. congruence.
    + destruct (repo_rows execution_times repo_name sizes rest) as [e | more];
        simpl.
      * destruct IH as [Hmsg [t [Hin Ht]]]. split; [exact Hmsg |].
        exists t. auto.
      * intros t [<- | Hin]; [| now apply IH].
        apply exec_time_of_returns. eauto.
Qed.

(** The join of the report returns exactly when the metrics entry of
    every (repository, tool) pair of the store can be read; otherwise it
    raises an AttributeError (a [.get] on a value that is no dict), so a
    metrics entry that is present but is not a dict makes the whole report
    fail, while one for a pair that has no CBOM does no harm. *)
Theorem join_returns_iff_entries_readable
    (cd : store) (execution_times : json)
    (repo_sizes : list (string * (json * json))) :
  match build_results cd execution_times repo_sizes with
  | inr df =>
      List.length df = List.length (store_pairs cd) /\
      forall repo_name tool,
        In (repo_name, tool) (store_pairs cd) ->
        entry_shaped execution_times repo_name tool = true
  | inl e =>
      (exists msg, e = AttributeError msg) /\
      exists repo_name tool,
        In (repo_name, tool) (store_pairs cd) /\
        entry_shaped execution_times repo_name tool = false
  end.
Proof.
  induction cd as [| [repo_name tools_data] rest IH]; simpl.
  - split; [reflexivity | intros ? ? []].
  - pose proof (repo_rows_returns execution_times repo_name
                  (dict_get repo_sizes repo_name (JNull, JNull)) tools_data)
      as Hrows.
    destruct (repo_rows execution_times repo_name
                (dict_get repo_sizes repo_name (JNull, JNull)) tools_data)
      as [e | rows] eqn:Erows; simpl.
    + destruct Hrows as [Hmsg [tool [Hin Ht]]]. split; [exact Hmsg |].
      exists repo_name, tool. split; [| exact Ht].
      apply in_or_app. left. apply in_map_iff in Hin.
      destruct Hin as [[t a] [<- Hin]]. apply in_map_iff. exists (t, a). auto.
    + destruct (build_results rest execution_times repo_sizes) as [e | more];
        simpl.
      * destruct IH as [Hmsg [rn [tool [Hin Ht]]]]. split; [exact Hmsg |].
        exists rn, tool. split; [| exact Ht]. apply in_or_app. now right.
      * destruct IH as [Hlen Hall]. split.
        -- rewrite !length_app, Hlen, length_map. f_equal.
           clear - Erows. revert rows Erows.
           induction tools_data as [| [t a] l IHl]; intros rows Erows;
             simpl in Erows.
           ++ now injection Erows as <-.
           ++ bind_inv Erows. bind_inv Erows. injection Erows as <-.
              simpl. f_equal. now apply IHl.
        -- intros rn tool Hin. apply in_app_or in Hin.
           destruct Hin as [Hin | Hin]; [| now apply Hall].
           apply in_map_iff in Hin. destruct Hin as [[t a] [Heq Hin]].
           simpl in Heq. injection Heq as <- <-.
           apply Hrows. apply in_map_iff. exists (t, a). auto.
Qed.

(** ** Reading a table back *)

Lemma counter_set_string_keys (c : counter) (s : string) (n : nat) :
  Forall string_key (map fst c) ->
  Forall string_key (map fst (counter_set c (KStr s) n)).
Proof.
  intros Hc. apply Forall_forall. intros k Hk.
  apply counter_set_keys in Hk. destruct Hk as [Hk | ->].
  - rewrite Forall_forall in Hc. now apply Hc.
  - now exists s.
Qed.

Lemma rebuild_types_clean (columns : list string) :
  forall cells c c',
    count_cells columns cells = true ->
    rebuild_types columns cells c = inr c' ->
    counter_ok c -> Forall string_key (map fst c) ->
    counter_ok c' /\ Forall string_key (map fst c').
Proof.
  induction columns as [| col columns IH]; intros cells c c' Hcells H Hok Hstr.
  - simpl in H. injection H as <-. auto.
  - destruct cells as [| x cells]; [simpl in H; injection H as <-; auto |].
    unfold count_cells in Hcells. cbn [combine forallb fst snd] in Hcells.
    apply andb_true_iff in Hcells. destruct Hcells as [Hx Hrest].
    cbn [rebuild_types] in H.
    destruct (PyStr.startswith col "Type_");
      [| now apply (IH _ _ _ Hrest H)].
    destruct x as [n | | v];
      [| now apply (IH _ _ _ Hrest H) | discriminate].
    apply (IH _ _ _ Hrest H).
    + destruct (Z.ltb_spec 0 n) as [Hpos | _]; [| exact Hok].
      destruct Hok as [Hd Hp]. split.
      * now apply distinct_keys_set.
      * apply counter_set_positive; [lia | exact Hp].
    + destruct (0 <? n)%Z; [| exact Hstr].
      now apply counter_set_string_keys.
Qed.

(** Cells that are no integers: 2.5 counts 2, 0.5 leaves a count of 0,
    True counts 1, a missing value and a negative float are skipped; a
    string and infinity make the reading raise. *)
Lemma rebuild_types_other_cells :
  rebuild_types ["Type_a"; "Type_b"; "Type_c"; "Type_d"; "Type_e"]
                [CObj (JFloat (S754_finite false 5 (-1)));
                 CObj (JFloat (S754_finite false 1 (-1)));
                 CObj (JBool true); CObj JNull;
                 CObj (JFloat (S754_finite true 5 (-1)))] []
    = inr [(KStr "a", 2); (KStr "b", 0); (KStr "c", 1)] /\
  rebuild_types ["Type_a"] [CObj (JStr "7")] []
    = inl (TypeError
             "'>' not supported between instances of 'str' and 'int'") /\
  rebuild_types ["Type_a"] [CObj (JFloat (S754_infinity false))] []
    = inl (OverflowError "cannot convert float infinity to integer").
Proof. repeat split. Qed.

Lemma rebuild_types_returns (columns : list string) :
  forall cells c,
    count_cells columns cells = true ->
    exists c', rebuild_types columns cells c = inr c'.
Proof.
  induction columns as [| col columns IH]; intros cells c H.
  - now exists c.
  - destruct cells as [| x cells]; [now exists c |].
    unfold count_cells in H. cbn [combine forallb fst snd] in H.
    apply andb_true_iff in H. destruct H as [Hx Hrest].
    cbn [rebuild_types].
    destruct (PyStr.startswith col "Type_"); [| now apply IH].
    destruct x as [n | | v]; [now apply IH | now apply IH | discriminate].
Qed.

(** Reading a table whose 'Type_' columns hold integer counts or missing
    values returns one row for each row of the table, with the cells kept
    by column name, and every rebuilt Component_Types has string keys
    only, each key once, and no count that is zero or negative, also when
    several columns give the same type name or the table holds zero or
    negative counts. *)
Theorem loaded_counters_are_clean (t : csv_table) :
  Forall (fun cells => count_cells (header t) cells = true) (body t) ->
  exists loaded,
    load_and_visualize_csv t = inr loaded /\
    map fst loaded = map (combine (header t)) (body t) /\
    Forall (fun lr => counter_ok (snd lr) /\
                      Forall string_key (map fst (snd lr)))
           loaded.
Proof.
  unfold load_and_visualize_csv. generalize (header t), (body t).
  intros columns rows Hrows.
  induction Hrows as [| cells rows Hcells _ IH].
  - exists []. repeat split; constructor.
  - destruct IH as [more [Hmore [Hfst Hall]]].
    destruct (rebuild_types_returns columns cells [] Hcells)
      as [comp_types E].
    exists ((combine columns cells, comp_types) :: more).
    rewrite load_rows_cons, E, Hmore. split; [reflexivity |].
    split; [simpl; now rewrite Hfst |].
    constructor; [| exact Hall]. simpl.
    apply (rebuild_types_clean _ _ _ _ Hcells E).
    + split; [reflexivity | constructor].
    + constructor.
Qed.

(** A table with a negative, a zero and a missing count, and two columns
    that give the type name 'd': the count of the later column stays. *)
Lemma loaded_counters_are_clean_witness :
  exists loaded,
    load_and_visualize_csv
      {| header := ["Tool"; "Type_a"; "Type_b"; "Type_c"; "Type_d";
                    "Type_Type_d"];
         body := [[CObj (JStr "cdxgen"); CInt (-2); CInt 0; CNaN; CInt 5;
                   CInt 7]] |}
      = inr loaded /\
    map snd loaded = [[(KStr "d", 7)]] /\
    Forall (fun lr => counter_ok (snd lr)) loaded.
Proof.
  assert (Forall
            (fun cells =>
               count_cells ["Tool"; "Type_a"; "Type_b"; "Type_c"; "Type_d";
                            "Type_Type_d"] cells = true)
            [[CObj (JStr "cdxgen"); CInt (-2); CInt 0; CNaN; CInt 5;
              CInt 7]]) as Hcells
    by (constructor; [reflexivity | constructor]).
  destruct (loaded_counters_are_clean
    {| header := ["Tool"; "Type_a"; "Type_b"; "Type_c"; "Type_d";
                  "Type_Type_d"];
       body := [[CObj (JStr "cdxgen"); CInt (-2); CInt 0; CNaN; CInt 5;
                 CInt 7]] |}
    Hcells) as [loaded [Hload [_ Hall]]].
  exists loaded. split; [exact Hload |]. split.
  - vm_compute in Hload. injection Hload as <-. reflexivity.
  - eapply Forall_impl; [| exact Hall]. now intros lr [Hok _].
Defined.

Lemma replace_type_prefix_any (s : string) :
  PyStr.replace ("Type_" ++ s) "Type_" "" = PyStr.replace s "Type_" "".
Proof.
  unfold PyStr.replace. simpl. now rewrite startswith_empty.
Qed.

Lemma rebuild_type_column_any (s : string) (n : nat) (columns : list string)
                              (cells : list cell) (c : counter) :
  rebuild_types (("Type_" ++ s) :: columns) (CInt (Z.of_nat n) :: cells) c =
  rebuild_types columns cells
    (if (0 <? n)%nat
     then counter_set c (KStr (PyStr.replace s "Type_" "")) n else c).
Proof.
  cbn [rebuild_types].
  rewrite startswith_type_prefix, replace_type_prefix_any, Nat2Z.id.
  replace (0 <? Z.of_nat n)%Z with (0 <? n)%nat; [reflexivity |].
  destruct n; reflexivity.
Qed.

Lemma rebuild_string_columns (float_repr : spec_float -> string) (r : row)
                             (keys : list pykey) :
  Forall string_key keys ->
  forall c,
    rebuild_types (type_columns float_repr keys) (type_cells keys r) c =
    inr (fold_left (stripped_entry (Component_Types r)) keys c).
Proof.
  induction 1 as [| k keys [s ->] _ IH]; intros c.
  - reflexivity.
  - cbn [type_columns type_cells map py_str fold_left stripped_entry].
    rewrite rebuild_type_column_any. apply IH.
Qed.

Lemma counter_set_In (c : counter) (k0 : pykey) (n0 : nat)
                     (k : pykey) (n : nat) :
  In (k, n) (counter_set c k0 n0) ->
  In (k, n) c \/ (n = n0 /\ key_eqb k k0 = true).
Proof.
  induction c as [| [k1 n1] c IH]; simpl.
  - intros [H | []]. injection H as <- <-. right.
    split; [reflexivity | apply key_eqb_refl].
  - destruct (key_eqb k1 k0) eqn:E; simpl.
    + intros [H | H]; [| auto]. injection H as <- <-. auto.
    + intros [H | H]; [auto |]. destruct (IH H) as [? | ?]; auto.
Qed.

Lemma key_eqb_string (k : pykey) (s : string) :
  key_eqb k (KStr s) = true -> k = KStr s.
Proof.
  destruct k; simpl; try discriminate.
  intros H. apply String.eqb_eq in H. now subst.
Qed.

Lemma stripped_entries_from (orig : counter) (keys : list pykey) :
  forall acc k n,
    In (k, n) (fold_left (stripped_entry orig) keys acc) ->
    In (k, n) acc \/
    exists s, In (KStr s) keys /\ k = KStr (PyStr.replace s "Type_" "") /\
              counter_lookup orig (KStr s) = Some n /\ 0 < n.
Proof.
  induction keys as [| k0 keys IH]; intros acc k n H; simpl in H; [auto |].
  apply IH in H. destruct H as [H | [s [Hin H]]].
  - destruct k0 as [| | | | s]; simpl in H; auto.
    destruct (Nat.ltb_spec 0 (counter_get orig (KStr s))) as [Hpos | _];
      [| auto].
    apply counter_set_In in H. destruct H as [H | [-> Hk]]; [auto |].
    right. exists s. split; [now left |].
    split; [now apply key_eqb_string |]. split; [| exact Hpos].
    unfold counter_get in *.
    destruct (counter_lookup orig (KStr s)); [reflexivity | lia].
  - right. exists s. split; [now right | exact H].
Qed.

(** For a results table whose component type names are strings, of any
    form, exporting and reading back returns one row for each row, and
    every entry of a rebuilt counter is a positive count of the original
    row, filed under the type name with every 'Type_' taken out: a name
    that holds 'Type_' does not come back as it was. *)
Theorem round_trip_strips_type_prefix
    (float_repr : spec_float -> string) (df : list row) :
  (forall r k, In r df -> In k (map fst (Component_Types r)) -> string_key k) ->
  exists loaded,
    load_and_visualize_csv (export_to_csv float_repr df) = inr loaded /\
    Forall2
      (fun r lr =>
         forall k n,
           In (k, n) (snd lr) ->
           exists s, k = KStr (PyStr.replace s "Type_" "") /\
                     counter_lookup (Component_Types r) (KStr s) = Some n /\
                     0 < n)
      df loaded.
Proof.
  intros Hnames. unfold load_and_visualize_csv, export_to_csv.
  cbn [header body].
  assert (Forall string_key (type_keys df)) as Hkeys.
  { apply Forall_forall. intros k Hk. apply type_keys_from_rows in Hk.
    destruct Hk as [r [Hr Hk]]. eapply Hnames; eassumption. }
  generalize (type_keys df) Hkeys. intros keys Hk. clear Hnames Hkeys.
  induction df as [| r df IH].
  - exists []. split; [reflexivity | constructor].
  - destruct IH as [loaded [Hload Hall]].
    eexists. split.
    + cbn [map]. rewrite load_rows_cons, rebuild_skip_main.
      rewrite (rebuild_string_columns float_repr r keys Hk), Hload.
      reflexivity.
    + constructor; [| exact Hall]. cbn [snd]. intros k n Hin.
      apply stripped_entries_from in Hin.
      destruct Hin as [[] | [s [_ H]]]. exists s. exact H.
Qed.

(** A row with the types "Type_x" (2) and "x" (5): both come back as "x",
    and the count of the column read last stays. *)
Lemma round_trip_strips_type_prefix_witness :
  exists loaded,
    load_and_visualize_csv
      (export_to_csv (fun _ => "nan")
         [{| Repository := "a"; Tool := "cbomkit"; Total_Components := 7;
             Is_Empty := false; Execution_Time := JNull;
             Component_Types := [(KStr "Type_x", 2); (KStr "x", 5)];
             Repository_Size := JNull; Java_Size := JNull |}])
      = inr loaded /\
    map snd loaded = [[(KStr "x", 5)]].
Proof.
  destruct (round_trip_strips_type_prefix (fun _ => "nan")
    [{| Repository := "a"; Tool := "cbomkit"; Total_Components := 7;
        Is_Empty := false; Execution_Time := JNull;
        Component_Types := [(KStr "Type_x", 2); (KStr "x", 5)];
        Repository_Size := JNull; Java_Size := JNull |}])
    as [loaded [Hload _]].
  - intros r k [<- | []]; simpl; intros [<- | [<- | []]]; eexists;
      reflexivity.
  - exists loaded. split; [exact Hload |].
    vm_compute in Hload. injection Hload as <-. reflexivity.
Defined.

(** ** Fetching the repository sizes *)

Lemma dict_keys_NoDup {V : Type} (d : list (string * V)) :
  NoDup (dict_keys d).
Proof.
  induction d as [| [k v] d IH]; simpl; constructor.
  - apply remove_In.
  - clear - IH. induction IH as [| x l Hx _ IHl]; simpl; [constructor |].
    destruct (string_dec k x); [exact IHl |].
    constructor; [| exact IHl].
    intros Hin. apply in_remove in Hin. now destruct Hin.
Qed.

Lemma py_items_NoDup (o : json) (items : list (string * json)) :
  py_items o = inr items -> NoDup (map fst items).
Proof.
  destruct o; simpl; try discriminate. intros H. injection H as <-.
  rewrite map_map. simpl. rewrite map_id. apply dict_keys_NoDup.
Qed.

Lemma existsb_key_trans (keys : list pykey) (k0 k : pykey) :
  existsb (fun k' => key_eqb k' k0) keys = true ->
  key_eqb k0 k = true ->
  existsb (fun k' => key_eqb k' k) keys = true.
Proof.
  intros Hex Hk. apply existsb_exists in Hex. destruct Hex as [k' [Hin Hk']].
  apply existsb_exists. exists k'. split; [exact Hin |].
  eapply key_eqb_trans; eassumption.
Qed.

Section FetchSizesFacts.
Variable get_repo_sizes : json -> py (json * json).

Lemma fetch_sizes_other (items : list (string * json)) (repo_name : string) :
  ~ In repo_name (map fst items) ->
  forall sizes0 processed0 sizes processed,
    fetch_sizes get_repo_sizes items sizes0 processed0
      = inr (sizes, processed) ->
    dict_lookup sizes repo_name = dict_lookup sizes0 repo_name.
Proof.
  induction items as [| [r0 d0] rest IH]; intros Hnotin sizes0 processed0
    sizes processed H; simpl in H.
  - now injection H as <- _.
  - assert (r0 <> repo_name) as Hne by (intros ->; apply Hnotin; now left).
    assert (~ In repo_name (map fst rest)) as Hrest
      by (intros Hin; apply Hnotin; now right).
    destruct (first_url d0) as [e | url]; [discriminate |]. simpl in H.
    destruct (truthy url); [| now apply (IH Hrest _ _ _ _ H)].
    destruct (key_of url) as [e | k0]; [discriminate |]. simpl in H.
    destruct (existsb (fun k' => key_eqb k' k0) processed0); simpl in H;
      [now apply (IH Hrest _ _ _ _ H) |].
    destruct (get_repo_sizes url) as [e | s]; [discriminate |]. simpl in H.
    rewrite (IH Hrest _ _ _ _ H). now apply dict_lookup_set_neq.
Qed.

Lemma fetch_sizes_lookup (before : list (string * json)) :
  forall repo_name repo_data after sizes0 processed0 sizes processed,
    ~ In repo_name (map fst before) ->
    ~ In repo_name (map fst after) ->
    fetch_sizes get_repo_sizes (before ++ (repo_name, repo_data) :: after)
                sizes0 processed0 = inr (sizes, processed) ->
    dict_lookup sizes repo_name =
    match url_key repo_data, first_url repo_data with
    | Some k, inr url =>
        if existsb (fun k' => key_eqb k' k) processed0 || seen_before before k
        then dict_lookup sizes0 repo_name
        else match get_repo_sizes url with
             | inr s => Some s
             | inl _ => None
             end
    | _, _ => dict_lookup sizes0 repo_name
    end.
Proof.
  induction before as [| [r0 d0] before IH];
    intros repo_name repo_data after sizes0 processed0 sizes processed
           Hb Ha H.
  - cbn [app fetch_sizes] in H. unfold url_key. cbn [seen_before existsb].
    destruct (first_url repo_data) as [e | url]; [discriminate |].
    simpl in H.
    destruct (truthy url); [| now apply (fetch_sizes_other _ _ Ha _ _ _ _ H)].
    destruct (key_of url) as [e | k]; [discriminate |]. simpl in H.
    rewrite orb_false_r.
    destruct (existsb (fun k' => key_eqb k' k) processed0); simpl in H;
      [now apply (fetch_sizes_other _ _ Ha _ _ _ _ H) |].
    destruct (get_repo_sizes url) as [e | s]; [discriminate |]. simpl in H.
    rewrite (fetch_sizes_other _ _ Ha _ _ _ _ H).
    apply dict_lookup_set_eq.
  - assert (r0 <> repo_name) as Hne by (intros ->; apply Hb; now left).
    assert (~ In repo_name (map fst before)) as Hb'
      by (intros Hin; apply Hb; now right).
    cbn [app fetch_sizes] in H.
    cbn [seen_before existsb snd]. fold (seen_before before).
    unfold url_key at 2.
    destruct (first_url d0) as [e | url0]; [discriminate |]. simpl in H.
    destruct (truthy url0);
      [| now rewrite (IH _ _ _ _ _ _ _ Hb' Ha H)].
    destruct (key_of url0) as [e | k0]; [discriminate |]. simpl in H.
    destruct (existsb (fun k' => key_eqb k' k0) processed0) eqn:Eseen;
      simpl in H.
    + rewrite (IH _ _ _ _ _ _ _ Hb' Ha H).
      destruct (url_key repo_data) as [k |]; [| reflexivity].
      destruct (first_url repo_data) as [e | url]; [reflexivity |].
      destruct (key_eqb k0 k) eqn:Ek; [| reflexivity].
      rewrite (existsb_key_trans _ _ _ Eseen Ek). reflexivity.
    + destruct (get_repo_sizes url0) as [e | s0]; [discriminate |].
      simpl in H. rewrite (IH _ _ _ _ _ _ _ Hb' Ha H).
      rewrite (dict_lookup_set_neq _ _ _ _ Hne).
      destruct (url_key repo_data) as [k |]; [| reflexivity].
      destruct (first_url repo_data) as [e | url]; [reflexivity |].
      rewrite existsb_app. cbn [existsb]. rewrite orb_false_r.
      now rewrite <- orb_assoc.
Qed.

(** Sizes are looked up once for each URL: a repository of the metrics
    gets a sizes entry exactly when the first of its tool entries that is
    a dict has a non-empty 'url' and no repository before it has the same
    URL; a later repository with the same URL gets none (in the report its
    sizes are then missing), and so does a repository whose first dict
    entry lacks the URL, whatever its other entries hold. *)
Theorem sizes_go_to_first_repository_of_a_url
    (execution_times : json) (sizes : list (string * (json * json)))
    (before after : list (string * json)) (repo_name : string)
    (repo_data : json) :
  _fetch_all_repo_sizes get_repo_sizes execution_times = inr sizes ->
  py_items execution_times
    = inr (before ++ (repo_name, repo_data) :: after)%list ->
  dict_lookup sizes repo_name = sizes_due get_repo_sizes before repo_data.
Proof.
  unfold _fetch_all_repo_sizes. intros H Hitems.
  pose proof (py_items_NoDup _ _ Hitems) as Hnd.
  rewrite Hitems in H. simpl in H.
  destruct (fetch_sizes get_repo_sizes
              (before ++ (repo_name, repo_data) :: after) [] [])
    as [e | [sizes' processed]] eqn:E; [discriminate |].
  simpl in H. injection H as <-.
  rewrite map_app in Hnd. simpl in Hnd.
  pose proof (NoDup_remove_2 _ _ _ Hnd) as Hnotin.
  rewrite (fetch_sizes_lookup before repo_name repo_data after [] []
             sizes' processed); [| | | exact E].
  - unfold sizes_due. simpl.
    destruct (url_key repo_data); [| reflexivity].
    destruct (first_url repo_data); [reflexivity |].
    now destruct (seen_before before p).
  - intros Hin. apply Hnotin. apply in_or_app. now left.
  - intros Hin. apply Hnotin. apply in_or_app. now right.
Qed.

End FetchSizesFacts.

(** Two repositories with one URL, and a third whose first tool entry has
    no URL: only the first gets sizes. *)
Lemma sizes_go_to_first_repository_of_a_url_witness :
  let get_repo_sizes := fun _ : json => inr (JInt 100, JInt 5) : py _ in
  let r1 := JDict [("cbomkit", JDict [("duration", JInt 3);
                                      ("url", JStr "u")])] in
  let r2 := JDict [("cdxgen", JDict [("url", JStr "u")])] in
  let r3 := JDict [("cbomkit", JDict [("duration", JInt 1)]);
                   ("cdxgen", JDict [("url", JStr "v")])] in
  let sizes := [("r1", (JInt 100, JInt 5))] in
  _fetch_all_repo_sizes get_repo_sizes
    (JDict [("r1", r1); ("r2", r2); ("r3", r3)]) = inr sizes /\
  dict_lookup sizes "r1" = Some (JInt 100, JInt 5) /\
  dict_lookup sizes "r2" = None /\
  dict_lookup sizes "r3" = None.
Proof.
  intros get_repo_sizes r1 r2 r3 sizes.
  split; [reflexivity |].
  split; [| split].
  - exact (sizes_go_to_first_repository_of_a_url get_repo_sizes
             (JDict [("r1", r1); ("r2", r2); ("r3", r3)]) sizes
             [] [("r2", r2); ("r3", r3)] "r1" r1 eq_refl eq_refl).
  - exact (sizes_go_to_first_repository_of_a_url get_repo_sizes
             (JDict [("r1", r1); ("r2", r2); ("r3", r3)]) sizes
             [("r1", r1)] [("r3", r3)] "r2" r2 eq_refl eq_refl).
  - exact (sizes_go_to_first_repository_of_a_url get_repo_sizes
             (JDict [("r1", r1); ("r2", r2); ("r3", r3)]) sizes
             [("r1", r1); ("r2", r2)] [] "r3" r3 eq_refl eq_refl).
Defined.

(** ** The DeepSeek answer *)

Lemma lookup_standard_field (d : list (string * json)) (key value : string) :
  exists d',
    add_missing (JDict d) key value = inr (JDict d') /\
    dict_lookup d' key = Some (dict_get d key (JStr value)) /\
    forall k, k <> key -> dict_lookup d' k = dict_lookup d k.
Proof.
  unfold add_missing, dict_get. simpl.
  destruct (dict_lookup d key) as [v |] eqn:E; simpl.
  - exists d. repeat split. exact E.
  - exists (dict_set d key (JStr value)). split; [reflexivity |].
    split; [apply dict_lookup_set_eq |].
    intros k Hk. now apply dict_lookup_set_neq.
Qed.

Lemma generate_cbom_dict (d0 : list (string * json)) :
  exists d,
    (c1 <- add_missing (JDict d0) "bomFormat" "CycloneDX" ;;
     add_missing c1 "specVersion" "1.6") = inr (JDict d) /\
    standard_fields_added d0 d.
Proof.
  destruct (lookup_standard_field d0 "bomFormat" "CycloneDX")
    as [d1 [H1 [Hb1 Ho1]]].
  destruct (lookup_standard_field d1 "specVersion" "1.6")
    as [d2 [H2 [Hb2 Ho2]]].
  exists d2. rewrite H1. simpl. split; [exact H2 |].
  unfold standard_fields_added. repeat split.
  - rewrite Ho2 by discriminate. exact Hb1.
  - rewrite Hb2. unfold dict_get. now rewrite Ho1 by discriminate.
  - intros k Hk1 Hk2. rewrite Ho2 by congruence. now apply Ho1.
Qed.

Lemma generate_cbom_dict_answer (v : json) (d0 : list (string * json)) :
  (if is_list v then JDict [("components", v)] else v) = JDict d0 ->
  exists d,
    DeepSeek.generate_cbom (inr v) = inr (Some (JDict d)) /\
    standard_fields_added d0 d.
Proof.
  intros Hv. destruct (generate_cbom_dict d0) as [d [Hd Hadded]].
  exists d. split; [| exact Hadded].
  unfold DeepSeek.generate_cbom. cbn [bind Monad_either]. cbv zeta.
  assert ((if negb (is_dict v)
           then if is_list v then JDict [("components", v)] else v
           else v) = JDict d0) as ->.
  { destruct v; simpl in Hv |- *; first [exact Hv | discriminate]. }
  cbn [bind Monad_either] in Hd |- *.
  destruct (add_missing (JDict d0) "bomFormat" "CycloneDX") as [e | c1];
    [discriminate |].
  cbn [bind Monad_either] in Hd |- *. now rewrite Hd.
Qed.

Lemma standard_fields_keep_components (d0 d : list (string * json))
                                      (tool_name : string) :
  standard_fields_added d0 d ->
  analyze_single_cbom (JDict d) tool_name
    = analyze_single_cbom (JDict d0) tool_name.
Proof.
  intros [_ [_ Hother]]. unfold analyze_single_cbom.
  destruct (is_flat_tool tool_name) eqn:Ht.
  - rewrite !(extract_components_flat _ _ Ht). unfold components_value.
    now rewrite Hother by discriminate.
  - now rewrite !(extract_components_nested _ _ Ht).
Qed.

(** [generate_cbom] of the DeepSeek adapter never raises and never returns
    a list.  A dict answer comes back with 'bomFormat' and 'specVersion'
    added where they were missing, their old values and every other key
    kept; a list answer comes back as such a dict around
    {'components': list}.  A number, a boolean or null gives None, and so
    does a failed request or an answer that is not JSON.  A JSON string
    gives None unless it contains both words 'bomFormat' and 'specVersion',
    in which case the string itself is returned as the CBOM. *)
Theorem deepseek_answer_by_shape (parsed : py json) :
  exists result,
    DeepSeek.generate_cbom parsed = inr result /\
    match parsed with
    | inr (JDict d0) =>
        exists d, result = Some (JDict d) /\ standard_fields_added d0 d
    | inr (JList l) =>
        exists d, result = Some (JDict d) /\
                  standard_fields_added [("components", JList l)] d
    | inr (JStr s) =>
        result = if PyStr.contains s "bomFormat"
                    && PyStr.contains s "specVersion"
                 then Some (JStr s) else None
    | _ => result = None
    end.
Proof.
  destruct parsed as [e | v].
  - exists None. split; [| reflexivity]. now destruct e.
  - destruct v as [| b | n | f | s | l | d0].
    1-4: exists None; split; reflexivity.
    + unfold DeepSeek.generate_cbom.
      cbn [is_dict is_list negb bind]. unfold add_missing at 1. simpl.
      destruct (PyStr.contains s "bomFormat") eqn:Eb; simpl.
      * unfold add_missing. simpl.
        destruct (PyStr.contains s "specVersion") eqn:Es; simpl;
          eexists; split; reflexivity.
      * exists None. split; reflexivity.
    + destruct (generate_cbom_dict_answer (JList l)
                  [("components", JList l)] eq_refl) as [d [Hd Hadded]].
      exists (Some (JDict d)). split; [exact Hd | now exists d].
    + destruct (generate_cbom_dict_answer (JDict d0) d0 eq_refl)
        as [d [Hd Hadded]].
      exists (Some (JDict d)). split; [exact Hd | now exists d].
Qed.

(** The fields the DeepSeek adapter adds do not change the analysis: for a
    dict or list answer, the CBOM [generate_cbom] returns is analysed, for
    every tool name, as the answer itself (a list as {'components': list});
    so for cdxgen and deepseek a list answer is counted with its length,
    where the bare list would have counted as empty. *)
Theorem deepseek_answer_analysed_as_given (v : json) (tool_name : string) :
  is_dict v || is_list v = true ->
  exists cbom,
    DeepSeek.generate_cbom (inr v) = inr (Some cbom) /\
    analyze_single_cbom cbom tool_name
      = analyze_single_cbom
          (if is_list v then JDict [("components", v)] else v) tool_name /\
    (is_flat_tool tool_name = true ->
     forall l r, v = JList l ->
                 analyze_single_cbom cbom tool_name = inr r ->
                 total_components r = List.length l /\
                 analyze_single_cbom v tool_name
                   = inr {| total_components := 0; is_empty := true;
                            component_types := []; error := None |}).
Proof.
  intros Hshape.
  assert (exists d0,
            (if is_list v then JDict [("components", v)] else v) = JDict d0)
    as [d0 Hd0].
  { destruct v; try discriminate; eexists; reflexivity. }
  destruct (generate_cbom_dict_answer v d0 Hd0) as [d [Hd Hadded]].
  exists (JDict d). split; [exact Hd |].
  rewrite Hd0. split; [now apply standard_fields_keep_components |].
  intros Ht l r -> Hr. simpl in Hd0. injection Hd0 as <-.
  rewrite (standard_fields_keep_components _ _ tool_name Hadded) in Hr.
  split.
  - apply analyze_single_cbom_inr in Hr.
    destruct Hr as [components [comps [Hext [Hiter [_ [Hn _]]]]]].
    rewrite (extract_components_flat _ _ Ht) in Hext.
    injection Hext as <-. simpl in Hiter. injection Hiter as <-.
    exact Hn.
  - unfold analyze_single_cbom.
    now rewrite (extract_components_flat _ _ Ht).
Qed.

(** A list of two components as the answer, analysed for deepseek. *)
Lemma deepseek_answer_analysed_as_given_witness :
  let answer := JList [JDict [("type", JStr "library")]; JStr "x"] in
  exists cbom,
    DeepSeek.generate_cbom (inr answer) = inr (Some cbom) /\
    analyze_single_cbom cbom "deepseek"
      = analyze_single_cbom (JDict [("components", answer)]) "deepseek" /\
    analyze_single_cbom cbom "deepseek"
      = inr {| total_components := 2; is_empty := false;
               component_types := [(KStr "library", 1); (KStr "unknown", 1)];
               error := None |}.
Proof.
  intros answer.
  destruct (deepseek_answer_analysed_as_given answer "deepseek" eq_refl)
    as [cbom [Hgen [Hsame _]]].
  exists cbom. split; [exact Hgen |]. split; [exact Hsame |].
  rewrite Hsame. reflexivity.
Defined.

(** ** The report, from the files *)








